(** * ESP32RaceChrono: the Monitor protocol engine and the CAN-spoof encoder

    A shallow embedding of [src/lib/esp32_racechrono.cpp] and
    [src/lib/esp32_racechrono.hpp].

    - C++ [float] is IEEE 754 binary32, modelled with the Standard
      Library's [spec_float] at precision 24 and maximal exponent 128.
    - [uint8_t], [int32_t] and [unsigned] values are integers in [Z]; the
      conversions that wrap are written out ([uint8], [int32], [uint32]).
    - The BLE stack and the [Ticker] are outside the repository: a call
      [ch->setValue(p, n); ch->indicate()] (or [notify()]) is recorded as
      an event carrying the bytes handed over, and [attach_ms] replaces
      the pending period of the single timer.
    - [std::vector::operator[]] and reads through [getData()] are
      unchecked in C++; the embedding returns a [Fault] where the source
      indexes outside the container. *)

From Stdlib Require Import ZArith List String Ascii Bool Lia.
From Stdlib Require Import Floats.SpecFloat.
From stdpp Require Import base list.
From Equations Require Import Equations.

Local Open Scope Z_scope.

(** ** Machine integers *)

(** Conversion to [uint8_t]. *)
Definition uint8 (z : Z) : Z := z mod 256.

(** Conversion to [uint32_t] / [unsigned]. *)
Definition uint32 (z : Z) : Z := z mod 2 ^ 32.

(** Conversion to [int32_t] / [int] (two's complement). *)
Definition int32 (z : Z) : Z := (z + 2 ^ 31) mod 2 ^ 32 - 2 ^ 31.

Definition INT32_MAX : Z := 2147483647.

(** ** binary32 arithmetic *)

Module Float32.

Definition prec : Z := 24.
Definition emax : Z := 128.

Definition float : Type := spec_float.

Definition NAN : float := S754_nan.

(** [1.0f] *)
Definition one : float := SFone prec emax.

(** [static_cast<float>(raw)]: round to nearest, ties to even. *)
Definition of_int32 (raw : Z) : float := binary_normalize prec emax raw 0 false.

Definition mul : float -> float -> float := SFmul prec emax.
Definition div : float -> float -> float := SFdiv prec emax.

Definition is_nan (x : float) : bool :=
  match x with S754_nan => true | _ => false end.

Definition is_infinity (x : float) : bool :=
  match x with S754_infinity _ => true | _ => false end.


(** [0.0f < x] *)
Definition positive (x : float) : bool := SFltb (S754_zero false) x.

(** [x] is the integer [r], with no rounding: a zero for [r = 0], or a
    finite number whose signed mantissa times two to its exponent is
    [r]. *)
Definition holds_exactly (x : float) (r : Z) : Prop :=
  match x with
  | S754_zero _ => r = 0
  | S754_finite s m e =>
      (if s then - Z.pos m else Z.pos m) * 2 ^ Z.max e 0 = r * 2 ^ Z.max (- e) 0
  | _ => False
  end.

End Float32.

(** ** class Equation *)

Module Equation.

Record t : Type := mk
  { scale_inv : Float32.float;
    equation : string;
    value : Float32.float }.

(** [Equation::Equation(std::string equation, float scale)] *)
Definition new (equation : string) (scale : Float32.float) : t :=
  {| scale_inv := Float32.div Float32.one scale;
     equation := equation;
     value := Float32.NAN |}.

(** [void Equation::update_from_raw(int32_t raw)] *)
Definition update_from_raw (raw : Z) (eq : t) : t :=
  {| scale_inv := scale_inv eq;
     equation := equation eq;
     value := if raw =? INT32_MAX
              then Float32.NAN
              else Float32.mul (Float32.of_int32 raw) (scale_inv eq) |}.

(** [void clear() { value = NAN; }] *)
Definition clear (eq : t) : t :=
  {| scale_inv := scale_inv eq;
     equation := equation eq;
     value := Float32.NAN |}.

End Equation.

(** ** The collaborators: transport and timer *)

(** What the engine hands to the outside, in call order. *)
Inductive event : Type :=
  | Indicate (payload : list Z)   (* config_ch->setValue(p, n); config_ch->indicate(); *)
  | Notify (payload : list Z)     (* main_ch->setValue(p, n); main_ch->notify(); *)
  | AttachMs (ms : Z).            (* t_state.attach_ms(ms, impl::t_state_callback, this); *)

(** The part of [BLEServer] the engine reads. *)
Record BLEServer : Type := mkServer { getConnectedCount : nat }.

(** Bytes handed to the transport by one event. *)
Definition event_bytes (e : event) : Z :=
  match e with
  | Indicate p | Notify p => Z.of_nat (List.length p)
  | AttachMs _ => 0
  end.

Definition bytes_sent (evs : list event) : Z :=
  fold_right (fun e n => event_bytes e + n) 0 evs.

(** Unchecked accesses of the source. *)
Inductive fault : Type :=
  | ReadPastEnd (index : nat)       (* raw[index] with index >= ch->getLength() *)
  | EqsOutOfRange (monitor_id : Z). (* mon->eqs[monitor_id] with monitor_id >= eqs.size() *)

Inductive result (A : Type) : Type :=
  | Done (a : A)
  | Fault (f : fault).
Arguments Done {A} a.
Arguments Fault {A} f.

(** Sequencing: the first fault ends the run. *)
Definition bind {A B : Type} (r : result A) (k : A -> result B) : result B :=
  match r with
  | Done a => k a
  | Fault f => Fault f
  end.

Notation "x <- r ;; k" := (bind r (fun x => k))
  (at level 100, r at next level, k at level 200, right associativity).

(** The bytes of a [std::string]. *)
Definition string_bytes (s : string) : list Z :=
  List.map (fun c => Z.of_N (N_of_ascii c)) (list_ascii_of_string s).

(** A [std::string] from bytes. *)
Definition bytes_string (bs : list Z) : string :=
  string_of_list_ascii (List.map (fun b => ascii_of_N (Z.to_N b)) bs).

(** ** class Monitor *)

Module Monitor.

(** [impl::monitor_state_t] *)
Inductive monitor_state_t : Type :=
  | UNINITIALIZED
  | STARTED
  | ACTIVE
  | FORCED_REFRESH.

Definition TIMEOUT_REFRESH_MS : Z := 1500.
Definition TIMEOUT_RESET_MS : Z := 3000.
Definition TIMEOUT_INIT_MS : Z := 1000.

(** The engine: the fields the methods read and write, the pending
    period of [t_state] ([None] while the timer was never attached) and
    the events issued so far, oldest first. *)
Record t : Type := mk
  { server : BLEServer;
    eqs : list Equation.t;
    state : monitor_state_t;
    t_state : option Z;
    out : list event }.

Definition set_eqs (l : list Equation.t) (m : t) : t :=
  mk (server m) l (state m) (t_state m) (out m).

Definition set_state (s : monitor_state_t) (m : t) : t :=
  mk (server m) (eqs m) s (t_state m) (out m).

(** [config_ch->setValue(payload, n); config_ch->indicate();] *)
Definition indicate (payload : list Z) (m : t) : t :=
  mk (server m) (eqs m) (state m) (t_state m) (out m ++ [Indicate payload]).

(** [t_state.attach_ms(ms, impl::t_state_callback, this);] attaching
    replaces whatever was pending. *)
Definition attach_ms (ms : Z) (m : t) : t :=
  mk (server m) (eqs m) (state m) (Some ms) (out m ++ [AttachMs ms]).

(** [void Monitor::add(std::string equation, float scale)] *)
Definition add (equation : string) (scale : Float32.float) (m : t) : t :=
  set_eqs (eqs m ++ [Equation.new equation scale]) m.

(** [void Monitor::timeout_reset(bool update_state)] *)
Definition timeout_reset (update_state : bool) (m : t) : t :=
  match state m with
  | STARTED | ACTIVE | FORCED_REFRESH =>
      let m := attach_ms TIMEOUT_REFRESH_MS m in
      if update_state then set_state ACTIVE m else m
  | UNINITIALIZED => m
  end.

(** [const int max_payload = 17;] *)
Definition max_payload : nat := 17.

(** The inner loop of [configure_equations] for one equation:
    [for (int i = 0; i < equation_len; i += max_payload)], entered at
    [i] with the current [mon_config_seq_num].  The string's length is
    below [2^31] on the target, so [i] and [equation_len - i] do not
    wrap; [mon_config_seq_num] is a [uint8_t] and does. *)
Equations? send_equation (eq_idx : nat) (text : string) (i : nat)
    (mon_config_seq_num : Z) (m : t) : t
    by wf (String.length text - i)%nat lt :=
  send_equation eq_idx text i mon_config_seq_num m
    with decide (i < String.length text)%nat => {
    | right _ := m;
    | left _ :=
        let equation_len := String.length text in
        let '(kind, payload_len) :=
          if decide (max_payload < equation_len - i)%nat
          then (2, 20%nat)
          else (3, (3 + (equation_len - i))%nat) in
        let payload :=
          [kind; uint8 (Z.of_nat eq_idx); mon_config_seq_num]
            ++ string_bytes (substring i (payload_len - 3) text) in
        send_equation eq_idx text (i + max_payload)
          (uint8 (mon_config_seq_num + 1)) (indicate payload m) }.
Proof. unfold max_payload. lia. Qed.

(** The outer loop of [configure_equations]:
    [for (unsigned eq_idx = 0; eq_idx < eqs.size(); eq_idx++)], entered
    at [eq_idx] with [rest] the equations from [eqs[eq_idx]] on. *)
Fixpoint send_equations (eq_idx : nat) (rest : list Equation.t) (m : t) : t :=
  match rest with
  | [] => m
  | eq :: rest' =>
      send_equations (S eq_idx) rest'
        (send_equation eq_idx (Equation.equation eq) 0 0 m)
  end.

(** [void Monitor::configure_equations()] *)
Definition configure_equations (m : t) : t :=
  if (getConnectedCount (server m) =? 0)%nat
  then timeout_reset false m
  else timeout_reset false (send_equations 0 (eqs m) m).

(** [void Monitor::update_all()] *)
Definition update_all (m : t) : t := indicate [4] m.

(** [for (auto eq : eqs) { eq.clear(); }]: [eq] is declared [auto], so
    every iteration copy-constructs a local [Equation] from the element
    and clears that local. *)
Definition clear_loop (m : t) : t :=
  fold_left
    (fun (m' : t) (element : Equation.t) =>
       let eq := element in
       let eq := Equation.clear eq in
       m')
    (eqs m) m.

(** [void Monitor::reset()] *)
Definition reset (m : t) : t :=
  let m := if (0 <? getConnectedCount (server m))%nat
           then indicate [0] m else m in
  let m := clear_loop m in
  let m := set_state STARTED m in
  configure_equations m.

(** [bool Monitor::data_valid()] *)
Definition data_valid (m : t) : bool :=
  match state m with
  | ACTIVE | FORCED_REFRESH => true
  | _ => false
  end.

(** [void Monitor::timeout_state()], run by [impl::t_state_callback]
    when the timer expires.  The subtraction is on [unsigned]. *)
Definition timeout_state (m : t) : t :=
  match state m with
  | STARTED =>
      let m := attach_ms TIMEOUT_INIT_MS m in
      configure_equations m
  | ACTIVE =>
      let m := attach_ms (uint32 (TIMEOUT_RESET_MS - TIMEOUT_REFRESH_MS)) m in
      let m := set_state FORCED_REFRESH m in
      update_all m
  | FORCED_REFRESH => reset m
  | UNINITIALIZED => m
  end.

(** [Monitor::Monitor(BLEServer* server)], after the services and
    callbacks are set up. *)
Definition new (srv : BLEServer) : t :=
  let m := mk srv [] UNINITIALIZED None [] in
  let m := set_state STARTED m in
  configure_equations m.

End Monitor.

(** ** The write callbacks *)

Module MonConfigCallbacks.

(** [void impl::MonConfigCallbacks::onWrite(BLECharacteristic* ch)]
    with [data] the bytes written; [getData()[0]] is only evaluated
    when the length is 2. *)
Definition onWrite (data : list Z) (mon : Monitor.t) : Monitor.t :=
  if (List.length data =? 2)%nat && (nth 0 data 0 =? 0)
  then Monitor.timeout_reset true mon
  else mon.

End MonConfigCallbacks.

Module MonNotifyCallbacks.

(** [raw[k]] for [raw = ch->getData()] holding [ch->getLength()] bytes. *)
Definition read (raw : list Z) (k : nat) : result Z :=
  match raw !! k with
  | Some b => Done b
  | None => Fault (ReadPastEnd k)
  end.

(** One iteration's reads:
    [int monitor_id = (int) raw[i];]
    [int val_raw = raw[i+1]<<24 | raw[i+2]<<16 | raw[i+3]<<8 | raw[i+4];] *)
Definition read_record (raw : list Z) (i : nat) : result (Z * Z) :=
  b0 <- read raw i ;;
  b1 <- read raw (i + 1) ;;
  b2 <- read raw (i + 2) ;;
  b3 <- read raw (i + 3) ;;
  b4 <- read raw (i + 4) ;;
  let monitor_id := b0 in
  let val_raw :=
    int32 (Z.lor (Z.lor (Z.lor (Z.shiftl b1 24) (Z.shiftl b2 16))
                        (Z.shiftl b3 8)) b4) in
  Done (monitor_id, val_raw).

(** The loop of [MonNotifyCallbacks::onWrite]:
    [for (int i = 0; i < ch->getLength(); i += 5)], entered at [i]. *)
Equations? notify_loop (raw : list Z) (i : nat) (l : list Equation.t)
    : result (list Equation.t) by wf (List.length raw - i)%nat lt :=
  notify_loop raw i l with decide (i < List.length raw)%nat => {
    | right _ := Done l;
    | left _ with read_record raw i => {
        | Fault f := Fault f;
        | Done (monitor_id, val_raw) with l !! Z.to_nat monitor_id => {
            | None := Fault (EqsOutOfRange monitor_id);
            | Some eq :=
                notify_loop raw (i + 5)
                  (<[Z.to_nat monitor_id := Equation.update_from_raw val_raw eq]> l) } } }.
Proof. lia. Qed.

(** [void impl::MonNotifyCallbacks::onWrite(BLECharacteristic* ch)]
    with [raw] the bytes written. *)
Definition onWrite (raw : list Z) (mon : Monitor.t) : result Monitor.t :=
  l <- notify_loop raw 0 (Monitor.eqs mon) ;;
  Done (Monitor.timeout_reset true (Monitor.set_eqs l mon)).

End MonNotifyCallbacks.

(** ** class CANSpoof *)

Module CANSpoof.

(** [void CANSpoof::update(uint32_t id, uint8_t data)]: the events
    issued by one call. *)
Definition update (server : BLEServer) (id data : Z) : list event :=
  if (getConnectedCount server =? 0)%nat then []
  else
    let payload :=
      [ uint8 (Z.shiftr id 0);
        uint8 (Z.shiftr id 8);
        uint8 (Z.shiftr id 16);
        uint8 (Z.shiftr id 24);
        data ] in
    [Notify payload].

End CANSpoof.

(** ** Observing a run *)

(** The payloads indicated on the config characteristic, in order. *)
Definition indicated (evs : list event) : list (list Z) :=
  flat_map (fun e => match e with Indicate p => [p] | _ => [] end) evs.

(** The events a call issued: those of [after] that [before] had not. *)
Definition issued (before after : Monitor.t) : list event :=
  drop (List.length (Monitor.out before)) (Monitor.out after).

(** An engine that has issued nothing, to run one loop in isolation. *)
Definition blank : Monitor.t :=
  Monitor.mk (mkServer 0) [] Monitor.UNINITIALIZED None [].

(** The chunks the inner loop of [configure_equations] issues for the
    equation at [eq_idx], entered at [i] with sequence number [seq_num]. *)
Definition chunks_from (eq_idx : nat) (text : string) (i : nat) (seq_num : Z)
    : list (list Z) :=
  indicated (Monitor.out (Monitor.send_equation eq_idx text i seq_num blank)).

(** The chunks of one whole equation. *)
Definition equation_chunks (eq_idx : nat) (text : string) : list (list Z) :=
  chunks_from eq_idx text 0 0.

(** Everything one run of the registration algorithm indicates: the
    chunks of every equation, in list order. *)
Definition registration (l : list Equation.t) : list (list Z) :=
  List.concat (imap (fun k eq => equation_chunks k (Equation.equation eq)) l).

(** The receiver's view of a chunk: header bytes 0, 1, 2 and the text. *)
Definition chunk_kind (p : list Z) : Z := nth 0 p 0.
Definition chunk_index (p : list Z) : Z := nth 1 p 0.
Definition chunk_seq (p : list Z) : Z := nth 2 p 0.
Definition chunk_text (p : list Z) : list Z := drop 3 p.

(** Reassembly of an expression from its chunks, in the order given. *)
Definition reassemble (chunks : list (list Z)) : string :=
  bytes_string (List.concat (List.map chunk_text chunks)).

(** Kind byte and number of text bytes of the chunk cut at offset [i]:
    the two branches of [if (equation_len - i > max_payload)]. *)
Definition cut (text : string) (i : nat) : Z * nat :=
  if decide (Monitor.max_payload < String.length text - i)%nat
  then (2, 17%nat)
  else (3, (String.length text - i)%nat).

(** The bytes of a sequence of value records, each a channel id and its
    value bytes. *)
Definition record_bytes (records : list (Z * list Z)) : list Z :=
  List.concat (List.map (fun r => fst r :: snd r) records).

(** A value-write payload made of whole records only, each naming one of
    [n] configured equations. *)
Definition whole_records (n : nat) (raw : list Z) : Prop :=
  exists records : list (Z * list Z),
    raw = record_bytes records /\
    Forall (fun r => 0 <= fst r < Z.of_nat n /\ List.length (snd r) = 4%nat) records.

(** ** Driving the engine *)

Module impl.

(** [void impl::t_state_callback(ESP32RaceChrono::Monitor* instance)] *)
Definition t_state_callback (instance : Monitor.t) : Monitor.t :=
  Monitor.timeout_state instance.

End impl.

(** The count [server->getConnectedCount()] reports changes as peers
    come and go; nothing else of the engine does. *)
Definition set_connected (n : nat) (m : Monitor.t) : Monitor.t :=
  Monitor.mk (mkServer n) (Monitor.eqs m) (Monitor.state m)
             (Monitor.t_state m) (Monitor.out m).

(** What can happen to a constructed engine: a call of a public method,
    the timer expiring, a write landing on one of the two
    characteristics, or the peer count changing. *)
Inductive call : Type :=
  | Add (equation : string) (scale : Float32.float)
  | UpdateAll
  | Reset
  | TimerFires
  | ConfigWrite (data : list Z)
  | NotifyWrite (raw : list Z)
  | Peers (n : nat).

Definition step (c : call) (m : Monitor.t) : result Monitor.t :=
  match c with
  | Add equation scale => Done (Monitor.add equation scale m)
  | UpdateAll => Done (Monitor.update_all m)
  | Reset => Done (Monitor.reset m)
  | TimerFires => Done (impl.t_state_callback m)
  | ConfigWrite data => Done (MonConfigCallbacks.onWrite data m)
  | NotifyWrite raw => MonNotifyCallbacks.onWrite raw m
  | Peers n => Done (set_connected n m)
  end.

(** A history of calls, oldest first; it ends at the first fault. *)
Fixpoint run (cs : list call) (m : Monitor.t) : result Monitor.t :=
  match cs with
  | [] => Done m
  | c :: cs' => m' <- step c m ;; run cs' m'
  end.

(** What an equation is registered with: its text and inverse scale. *)
Definition registered (eq : Equation.t) : string * Float32.float :=
  (Equation.equation eq, Equation.scale_inv eq).

(** ** The wire format of value records *)

(** The 32-bit two's-complement integer [v], most significant byte
    first, as the remote side puts it into a value record. *)
Definition be32 (v : Z) : list Z :=
  [uint8 (Z.shiftr v 24); uint8 (Z.shiftr v 16); uint8 (Z.shiftr v 8); uint8 v].

(** The signed integer four value bytes stand for. *)
Definition record_value (bs : list Z) : Z :=
  int32 (nth 0 bs 0 * 2 ^ 24 + nth 1 bs 0 * 2 ^ 16 + nth 2 bs 0 * 2 ^ 8 + nth 3 bs 0).

(** One record applied to the equations. *)
Definition apply_record (l : list Equation.t) (r : Z * list Z) : list Equation.t :=
  match l !! Z.to_nat (fst r) with
  | Some eq =>
      <[Z.to_nat (fst r) := Equation.update_from_raw (record_value (snd r)) eq]> l
  | None => l
  end.

(** A record for one of [n] equations, made of five bytes. *)
Definition record_ok (n : nat) (r : Z * list Z) : Prop :=
  0 <= fst r < Z.of_nat n
  /\ List.length (snd r) = 4%nat
  /\ Forall (fun b => 0 <= b < 256) (snd r).

(** What the engine may hand to the outside: on the config
    characteristic a Reset or Update-all command or a chunk of 4 to 20
    bytes of kind 2 or 3; the timer at 1000 or 1500 ms; never a notify. *)
Definition event_ok (e : event) : Prop :=
  match e with
  | Indicate p =>
      p = [0] \/ p = [4]
      \/ ((chunk_kind p = 2 \/ chunk_kind p = 3)
          /\ (4 <= List.length p <= 20)%nat)
  | Notify _ => False
  | AttachMs ms => ms = 1000 \/ ms = 1500
  end.

(** What holds of an engine from its construction on: it has left
    Uninitialized, its timer is attached with a period of 1500 ms, and
    all it has issued is [event_ok]. *)
Definition engine_ok (m : Monitor.t) : Prop :=
  Monitor.state m <> Monitor.UNINITIALIZED
  /\ Monitor.t_state m = Some 1500
  /\ Forall event_ok (Monitor.out m).

(** * Properties *)

(** ** Strings and bytes *)

Lemma string_bytes_length (s : string) :
  List.length (string_bytes s) = String.length s.
Proof.
  unfold string_bytes. rewrite List.length_map.
  induction s as [|c s IH]; simpl; [reflexivity | now rewrite IH].
Qed.

Lemma list_ascii_substring (s : string) :
  forall i n,
    list_ascii_of_string (substring i n s) = take n (drop i (list_ascii_of_string s)).
Proof.
  induction s as [|c s IH]; intros i n.
  - destruct i, n; reflexivity.
  - destruct i as [|i].
    + destruct n as [|n]; simpl; [reflexivity|].
      rewrite IH. reflexivity.
    + simpl. apply IH.
Qed.

Lemma string_bytes_substring (s : string) (i n : nat) :
  string_bytes (substring i n s) = take n (drop i (string_bytes s)).
Proof.
  unfold string_bytes. rewrite list_ascii_substring.
  rewrite List.skipn_map, List.firstn_map. reflexivity.
Qed.

Lemma bytes_string_bytes (s : string) : bytes_string (string_bytes s) = s.
Proof.
  unfold bytes_string, string_bytes. rewrite List.map_map.
  rewrite (List.map_ext _ (fun c => c)).
  - rewrite List.map_id. apply string_of_list_ascii_of_string.
  - intros c. rewrite N2Z.id. apply ascii_N_embedding.
Qed.

(** ** The registration loops *)

Section Registration.

Import Monitor.

Lemma send_equation_unfold (k : nat) (text : string) (i : nat) (s : Z) (m : t) :
  send_equation k text i s m =
  if decide (i < String.length text)%nat
  then send_equation k text (i + max_payload) (uint8 (s + 1))
         (indicate ([fst (cut text i); uint8 (Z.of_nat k); s]
                      ++ take (snd (cut text i)) (drop i (string_bytes text))) m)
  else m.
Proof.
  rewrite send_equation_equation_1.
  destruct (decide (i < String.length text)%nat) as [Hlt|Hge].
  - rewrite send_equation_clause_1_equation_1. unfold cut.
    destruct (decide (max_payload < String.length text - i)%nat); cbn zeta;
      cbn [fst snd]; rewrite string_bytes_substring.
    + reflexivity.
    + replace (3 + (String.length text - i) - 3)%nat
        with (String.length text - i)%nat by lia.
      reflexivity.
  - apply send_equation_clause_1_equation_2.
Qed.

Lemma indicated_app (l1 l2 : list event) :
  indicated (l1 ++ l2) = indicated l1 ++ indicated l2.
Proof. unfold indicated. apply List.flat_map_app. Qed.

Lemma indicated_cons (p : list Z) (l : list event) :
  indicated (Indicate p :: l) = p :: indicated l.
Proof. reflexivity. Qed.

Lemma indicated_Indicate (l : list (list Z)) :
  indicated (List.map Indicate l) = l.
Proof. induction l as [|p l IH]; simpl; [reflexivity | now rewrite IH]. Qed.

(** The inner loop only appends indications. *)
Lemma send_equation_out (k : nat) (text : string) :
  forall (r i : nat) (s : Z) (m : t),
    (String.length text - i <= r)%nat ->
    send_equation k text i s m =
    mk (server m) (eqs m) (state m) (t_state m)
       (out m ++ List.map Indicate (chunks_from k text i s)).
Proof.
  induction r as [|r IH]; intros i s m Hr;
    unfold chunks_from; rewrite !(send_equation_unfold k text i);
    destruct (decide (i < String.length text)%nat) as [Hlt|Hge];
    try lia;
    try (cbn [out blank indicated flat_map List.map]; rewrite app_nil_r;
         destruct m; reflexivity).
  rewrite (IH _ _ (indicate _ m)) by (unfold max_payload; lia).
  rewrite (IH _ _ (indicate _ blank)) by (unfold max_payload; lia).
  cbn [out server eqs state t_state indicate blank app].
  rewrite indicated_cons, indicated_Indicate.
  rewrite <- app_assoc. reflexivity.
Qed.

Lemma chunks_from_unfold (k : nat) (text : string) (i : nat) (s : Z) :
  chunks_from k text i s =
  if decide (i < String.length text)%nat
  then ([fst (cut text i); uint8 (Z.of_nat k); s]
          ++ take (snd (cut text i)) (drop i (string_bytes text)))
         :: chunks_from k text (i + max_payload) (uint8 (s + 1))
  else [].
Proof.
  unfold chunks_from at 1. rewrite send_equation_unfold.
  destruct (decide (i < String.length text)%nat); [|reflexivity].
  rewrite (send_equation_out k text (String.length text)) by lia.
  cbn [out indicate blank app].
  rewrite indicated_cons, indicated_Indicate. reflexivity.
Qed.

(** *** What the chunks of one equation look like *)

Lemma chunk_text_header (kind index seq_num : Z) (fragment : list Z) :
  chunk_text (kind :: index :: seq_num :: fragment) = fragment.
Proof. reflexivity. Qed.

Lemma chunks_text (k : nat) (text : string) :
  forall (r i : nat) (s : Z),
    (String.length text - i <= r)%nat ->
    List.concat (List.map chunk_text (chunks_from k text i s))
    = drop i (string_bytes text).
Proof.
  induction r as [|r IH]; intros i s Hr; rewrite chunks_from_unfold;
    destruct (decide (i < String.length text)%nat) as [Hlt|Hge]; try lia;
    try (simpl; symmetry; apply drop_ge; rewrite string_bytes_length; lia).
  cbn [List.map List.concat]. rewrite IH by (unfold max_payload; lia).
  cbn [app]. rewrite chunk_text_header. unfold cut.
  destruct (decide (max_payload < String.length text - i)%nat) as [Hmore|Hlast];
    cbn [snd].
  - rewrite <- (take_drop 17 (drop i (string_bytes text))) at 2.
    rewrite drop_drop. reflexivity.
  - rewrite (drop_ge _ (i + max_payload)), app_nil_r
      by (rewrite string_bytes_length; lia).
    apply take_ge. rewrite length_drop, string_bytes_length. lia.
Qed.

Lemma chunks_headers (k : nat) (text : string) :
  forall (r i : nat) (s : Z),
    (String.length text - i <= r)%nat ->
    Forall (fun c => (List.length (chunk_text c) <= 17)%nat
                     /\ chunk_index c = uint8 (Z.of_nat k))
           (chunks_from k text i s).
Proof.
  induction r as [|r IH]; intros i s Hr; rewrite chunks_from_unfold;
    destruct (decide (i < String.length text)%nat) as [Hlt|Hge]; try lia;
    try apply Forall_nil_2.
  apply Forall_cons_2; [|apply IH; unfold max_payload; lia].
  split; [|reflexivity].
  cbn [app]. rewrite chunk_text_header, length_take. unfold cut.
  destruct (decide (max_payload < String.length text - i)%nat);
    cbn [snd]; unfold max_payload in *; lia.
Qed.

Lemma chunks_count (k : nat) (text : string) :
  forall (r i : nat) (s : Z),
    (String.length text - i <= r)%nat ->
    List.length (chunks_from k text i s)
    = ((String.length text - i + 16) / 17)%nat.
Proof.
  induction r as [|r IH]; intros i s Hr; rewrite chunks_from_unfold;
    destruct (decide (i < String.length text)%nat) as [Hlt|Hge]; try lia;
    try (replace (String.length text - i)%nat with 0%nat by lia; reflexivity).
  cbn [List.length]. rewrite IH by (unfold max_payload; lia).
  unfold max_payload.
  destruct (le_lt_dec (String.length text - i) 17) as [Hlast|Hmore].
  - replace (String.length text - (i + 17))%nat with 0%nat by lia.
    change ((0 + 16) / 17)%nat with 0%nat.
    apply (Nat.div_unique _ 17 1 (String.length text - i - 1)); lia.
  - replace (String.length text - i + 16)%nat
      with (String.length text - (i + 17) + 16 + 1 * 17)%nat by lia.
    rewrite Nat.div_add by lia. lia.
Qed.

Lemma chunks_kinds (k : nat) (text : string) :
  forall (r i : nat) (s : Z),
    (String.length text - i <= r)%nat ->
    List.map chunk_kind (chunks_from k text i s)
    = repeat 2 (List.length (chunks_from k text i s) - 1)
        ++ (if decide (i < String.length text)%nat then [3] else []).
Proof.
  induction r as [|r IH]; intros i s Hr; rewrite chunks_from_unfold;
    destruct (decide (i < String.length text)%nat) as [Hlt|Hge]; try lia;
    try reflexivity.
  cbn [List.map List.length]. rewrite IH by (unfold max_payload; lia).
  pose proof (chunks_count k text r (i + max_payload) (uint8 (s + 1))) as Hn.
  rewrite Hn by (unfold max_payload; lia).
  unfold chunk_kind at 1, cut. cbn [app nth].
  destruct (decide (max_payload < String.length text - i)%nat) as [Hmore|Hlast];
    destruct (decide (i + max_payload < String.length text)%nat) as [Hnext|Hend];
    unfold max_payload in *; try lia; cbn [fst].
  - assert (Hpos : (1 <= (String.length text - (i + 17) + 16) / 17)%nat).
    { apply Nat.div_le_lower_bound; lia. }
    replace (S ((String.length text - (i + 17) + 16) / 17) - 1)%nat
      with (S ((String.length text - (i + 17) + 16) / 17 - 1))%nat by lia.
    reflexivity.
  - replace (String.length text - (i + 17))%nat with 0%nat by lia.
    reflexivity.
Qed.

Lemma chunks_seqs (k : nat) (text : string) :
  forall (r i : nat) (s : Z),
    (String.length text - i <= r)%nat ->
    0 <= s < 256 ->
    List.map chunk_seq (chunks_from k text i s)
    = List.map (fun j => uint8 (s + Z.of_nat j))
               (seq 0 (List.length (chunks_from k text i s))).
Proof.
  induction r as [|r IH]; intros i s Hr Hs; rewrite chunks_from_unfold;
    destruct (decide (i < String.length text)%nat) as [Hlt|Hge]; try lia;
    try reflexivity.
  cbn [List.map List.length seq].
  rewrite IH by (unfold max_payload, uint8; try lia; apply Z.mod_pos_bound; lia).
  unfold chunk_seq at 1. cbn [app nth]. f_equal.
  - unfold uint8. rewrite Z.add_0_r, Z.mod_small; lia.
  - rewrite <- seq_shift, List.map_map. apply List.map_ext. intros j.
    unfold uint8. rewrite Zplus_mod_idemp_l. f_equal. lia.
Qed.

(** *** The outer loop and the whole registration *)

Lemma send_equations_out (rest : list Equation.t) :
  forall (j : nat) (m : t),
    send_equations j rest m =
    mk (server m) (eqs m) (state m) (t_state m)
       (out m ++ List.map Indicate
          (List.concat
             (imap (fun k eq => equation_chunks (j + k) (Equation.equation eq))
                   rest))).
Proof.
  induction rest as [|eq rest IH]; intros j m.
  - simpl. rewrite app_nil_r. destruct m; reflexivity.
  - cbn [send_equations]. rewrite IH.
    rewrite (send_equation_out j _ (String.length (Equation.equation eq))) by lia.
    cbn [server eqs state t_state out imap List.concat].
    rewrite List.map_app, <- app_assoc, Nat.add_0_r.
    do 4 f_equal. apply (f_equal (@List.concat _)).
    apply imap_ext. intros k eq0 _. unfold compose.
    f_equal. lia.
Qed.

Lemma issued_app (m m' : t) (evs : list event) :
  out m' = out m ++ evs -> issued m m' = evs.
Proof. intros H. unfold issued. rewrite H. apply drop_app_length. Qed.

(** The timer call that ends [configure_equations]. *)
Lemma timeout_reset_false (m : t) :
  timeout_reset false m =
  match state m with
  | UNINITIALIZED => m
  | _ => attach_ms TIMEOUT_REFRESH_MS m
  end.
Proof. unfold timeout_reset. destruct (state m); reflexivity. Qed.

(** [configure_equations] in closed form. *)
Lemma configure_equations_unfold (m : t) :
  configure_equations m =
  let sent :=
    if (getConnectedCount (server m) =? 0)%nat then []
    else List.map Indicate (registration (eqs m)) in
  match state m with
  | UNINITIALIZED =>
      mk (server m) (eqs m) (state m) (t_state m) (out m ++ sent)
  | _ =>
      mk (server m) (eqs m) (state m) (Some TIMEOUT_REFRESH_MS)
         (out m ++ sent ++ [AttachMs TIMEOUT_REFRESH_MS])
  end.
Proof.
  unfold configure_equations, registration.
  destruct m as [srv l st ts o]. cbn [state server eqs t_state out].
  destruct (getConnectedCount srv =? 0)%nat; cbn zeta;
    rewrite timeout_reset_false, ?send_equations_out;
    cbn [state server eqs t_state out Nat.add];
    destruct st; unfold attach_ms;
    cbn [state server eqs t_state out app];
    rewrite ?app_nil_r, <- ?app_assoc; reflexivity.
Qed.

Lemma configure_equations_fields (m : t) :
  server (configure_equations m) = server m
  /\ eqs (configure_equations m) = eqs m
  /\ state (configure_equations m) = state m.
Proof.
  rewrite configure_equations_unfold. cbn zeta.
  destruct (state m) eqn:Hst; cbn [server eqs state]; auto.
Qed.

Lemma configure_equations_indicated (m : t) :
  indicated (issued m (configure_equations m))
  = if (getConnectedCount (server m) =? 0)%nat then []
    else registration (eqs m).
Proof.
  rewrite configure_equations_unfold. cbn zeta.
  destruct (state m);
    (erewrite issued_app by (cbn [out]; reflexivity));
    destruct (getConnectedCount (server m) =? 0)%nat;
    rewrite ?indicated_app, ?indicated_Indicate, ?app_nil_r; reflexivity.
Qed.

Lemma configure_equations_timer (m : t) :
  state m <> UNINITIALIZED ->
  t_state (configure_equations m) = Some TIMEOUT_REFRESH_MS.
Proof.
  intros Hst. rewrite configure_equations_unfold. cbn zeta.
  destruct (state m); try contradiction; reflexivity.
Qed.

End Registration.

(** ** Registration chunks (C4) *)

Lemma seq_numbers_small (n : nat) :
  (n <= 256)%nat ->
  List.map (fun j => uint8 (0 + Z.of_nat j)) (seq 0 n) = List.map Z.of_nat (seq 0 n).
Proof.
  intros Hn. apply List.map_ext_in. intros j Hj. apply in_seq in Hj.
  unfold uint8. rewrite Z.add_0_l. apply Z.mod_small. lia.
Qed.

(** C4, counterexample: with a peer connected and a single equation whose
    expression is empty (L = 0), [configure_equations] indicates nothing
    at all, so no chunk is emitted for that equation. *)
Lemma empty_expression_emits_no_chunk :
  let m := Monitor.add EmptyString Float32.one (Monitor.new (mkServer 1)) in
  (0 < getConnectedCount (Monitor.server m))%nat
  /\ List.map (fun eq => String.length (Equation.equation eq)) (Monitor.eqs m) = [0%nat]
  /\ indicated (issued m (Monitor.configure_equations m)) = [].
Proof. cbv zeta. split; [cbn; lia | split; reflexivity]. Qed.

(** C4, as amended: with a peer connected, [configure_equations]
    indicates the chunks of every equation in list order; for an equation
    at index [k] whose expression has length L in {0, 1, 17, 18, 34, 35},
    its chunks carry index byte [k mod 256], sequence numbers 0, 1, 2, ...,
    at most 17 text bytes each, kind 2 on all but the last and kind 3 on
    the last, and their text fragments concatenated in order give back the
    expression; there is a chunk exactly when L > 0 (none when L = 0). *)
Theorem configure_equations_chunks (m : Monitor.t) :
  (0 < getConnectedCount (Monitor.server m))%nat ->
  indicated (issued m (Monitor.configure_equations m)) = registration (Monitor.eqs m)
  /\ forall (k : nat) (eq : Equation.t),
       Monitor.eqs m !! k = Some eq ->
       In (String.length (Equation.equation eq)) [0; 1; 17; 18; 34; 35]%nat ->
       let cs := equation_chunks k (Equation.equation eq) in
       List.map chunk_seq cs = List.map Z.of_nat (seq 0 (List.length cs))
       /\ Forall (fun c => (List.length (chunk_text c) <= 17)%nat
                           /\ chunk_index c = uint8 (Z.of_nat k)) cs
       /\ (String.length (Equation.equation eq) = 0%nat -> cs = [])
       /\ (String.length (Equation.equation eq) <> 0%nat ->
           List.map chunk_kind cs = repeat 2 (List.length cs - 1) ++ [3])
       /\ reassemble cs = Equation.equation eq.
Proof.
  intros Hpeer. split.
  - rewrite configure_equations_indicated.
    destruct (getConnectedCount (Monitor.server m)); [lia | reflexivity].
  - intros k eq _ HL cs. subst cs. unfold equation_chunks.
    set (text := Equation.equation eq) in *.
    assert (Hlen : (String.length text <= 35)%nat).
    { cbn [In] in HL. lia. }
    pose proof (chunks_count k text (String.length text) 0 0) as Hn.
    rewrite Nat.sub_0_r in Hn. specialize (Hn (Nat.le_refl _)).
    assert (Hn3 : (List.length (chunks_from k text 0 0) <= 256)%nat).
    { rewrite Hn. transitivity 3%nat; [|lia].
      apply Nat.lt_succ_r, Nat.Div0.div_lt_upper_bound; lia. }
    repeat split.
    + rewrite (chunks_seqs k text (String.length text)) by lia.
      apply seq_numbers_small, Hn3.
    + apply (chunks_headers k text (String.length text)). lia.
    + intros H0. apply List.length_zero_iff_nil. rewrite Hn, H0. reflexivity.
    + intros H0. rewrite (chunks_kinds k text (String.length text)) by lia.
      destruct (decide (0 < String.length text)%nat); [reflexivity | lia].
    + unfold reassemble.
      rewrite (chunks_text k text (String.length text)) by lia.
      apply bytes_string_bytes.
Qed.

(** The amended C4 at an expression of 18 characters, registered by an
    engine with one peer. *)
Lemma configure_equations_chunks_witness :
  let eq := Equation.new "rpm*2+speed/3.6+10" Float32.one in
  let m := Monitor.mk (mkServer 1) [eq] Monitor.STARTED None [] in
  let cs := equation_chunks 0 (Equation.equation eq) in
  (0 < getConnectedCount (Monitor.server m))%nat
  /\ Monitor.eqs m !! 0%nat = Some eq
  /\ In (String.length (Equation.equation eq)) [0; 1; 17; 18; 34; 35]%nat
  /\ indicated (issued m (Monitor.configure_equations m)) = registration (Monitor.eqs m)
  /\ List.map chunk_seq cs = List.map Z.of_nat (seq 0 (List.length cs))
  /\ List.map chunk_kind cs = repeat 2 (List.length cs - 1) ++ [3]
  /\ reassemble cs = Equation.equation eq.
Proof.
  intros eq m cs.
  assert (Hpeer : (0 < getConnectedCount (Monitor.server m))%nat) by (cbn; lia).
  assert (Hk : Monitor.eqs m !! 0%nat = Some eq) by reflexivity.
  assert (HL : In (String.length (Equation.equation eq)) [0; 1; 17; 18; 34; 35]%nat)
    by (cbn; lia).
  destruct (configure_equations_chunks m Hpeer) as [Hall H].
  destruct (H 0%nat eq Hk HL) as (Hs & _ & _ & Hkind & Hr).
  split; [exact Hpeer | split; [exact Hk | split; [exact HL |]]].
  split; [exact Hall | split; [exact Hs | split; [| exact Hr]]].
  apply Hkind. cbn. lia.
Defined.

(** ** The state machine *)

Section StateMachine.

Import Monitor.

(** The range-for of [reset] changes nothing: it clears copies. *)
Lemma clear_loop_id (m : t) : clear_loop m = m.
Proof.
  unfold clear_loop. generalize (eqs m) as l.
  induction l as [|eq l IH]; simpl; [reflexivity | exact IH].
Qed.

Lemma reset_fields (m : t) :
  eqs (reset m) = eqs m /\ state (reset m) = STARTED
  /\ t_state (reset m) = Some TIMEOUT_REFRESH_MS.
Proof.
  unfold reset. rewrite clear_loop_id.
  set (m1 := if (0 <? getConnectedCount (server m))%nat then indicate [0] m else m).
  assert (Heqs : eqs m1 = eqs m) by (subst m1; destruct (0 <? _)%nat; reflexivity).
  destruct (configure_equations_fields (set_state STARTED m1)) as (_ & He & Hs).
  rewrite He, Hs. cbn [eqs state set_state].
  repeat split; [exact Heqs|].
  apply configure_equations_timer. cbn. discriminate.
Qed.

(** With no peer, [configure_equations] only re-arms the timer. *)
Lemma configure_equations_no_peer (m : t) :
  getConnectedCount (server m) = 0%nat ->
  state m <> UNINITIALIZED ->
  issued m (configure_equations m) = [AttachMs TIMEOUT_REFRESH_MS].
Proof.
  intros Hc Hst. rewrite configure_equations_unfold, Hc. cbn zeta.
  destruct (state m); try contradiction;
    (erewrite issued_app by (cbn [out]; reflexivity)); reflexivity.
Qed.

(** With no peer, [reset] sends nothing either. *)
Lemma reset_no_peer (m : t) :
  getConnectedCount (server m) = 0%nat ->
  issued m (reset m) = [AttachMs TIMEOUT_REFRESH_MS].
Proof.
  intros Hc. unfold reset. rewrite Hc, clear_loop_id. cbn [Nat.ltb Nat.leb].
  rewrite configure_equations_unfold. cbn [server set_state state eqs out t_state].
  rewrite Hc. cbn zeta.
  (erewrite issued_app by (cbn [out]; reflexivity)); reflexivity.
Qed.

End StateMachine.

(** ** reset (C1) *)

(** C1: [reset()] always ends in state Started, but it does not clear the
    stored values: every equation keeps the value it had.  An engine
    whose equation 0 holds 1000.0 still holds 1000.0 (not NoData) after
    [reset()], and after a second [reset()]. *)
Theorem reset_keeps_values :
  (forall m : Monitor.t,
      Monitor.eqs (Monitor.reset m) = Monitor.eqs m
      /\ Monitor.state (Monitor.reset m) = Monitor.STARTED)
  /\ let eq := Equation.update_from_raw 1000 (Equation.new "rpm*2" Float32.one) in
     let m := Monitor.mk (mkServer 1) [eq] Monitor.ACTIVE (Some Monitor.TIMEOUT_REFRESH_MS) [] in
     List.map Equation.value (Monitor.eqs (Monitor.reset m)) = [Float32.of_int32 1000]
     /\ List.map Equation.value (Monitor.eqs (Monitor.reset (Monitor.reset m)))
        = [Float32.of_int32 1000]
     /\ Float32.is_nan (Float32.of_int32 1000) = false.
Proof.
  split.
  - intros m. destruct (reset_fields m) as (He & Hs & _). split; assumption.
  - cbv zeta. rewrite !(proj1 (reset_fields _)). repeat split.
Qed.

(** ** The liveness timer in state Started (C5) *)

(** C5: when the timer fires in state Started, the handler first attaches
    the timer at TIMEOUT_INIT (1000 ms) and then runs the registration,
    whose last step attaches it again at TIMEOUT_REFRESH (1500 ms): the
    period pending when the handler returns is 1500 ms, not 1000 ms.  The
    state stays Started. *)
Theorem timeout_state_started_rearms_at_refresh
    (srv : BLEServer) (l : list Equation.t) (pending : option Z) (evs : list event) :
  let m := Monitor.mk srv l Monitor.STARTED pending evs in
  Monitor.t_state (Monitor.timeout_state m) = Some 1500
  /\ Monitor.TIMEOUT_INIT_MS = 1000
  /\ Monitor.state (Monitor.timeout_state m) = Monitor.STARTED
  /\ issued m (Monitor.timeout_state m)
     = AttachMs Monitor.TIMEOUT_INIT_MS
         :: (if (getConnectedCount srv =? 0)%nat then []
             else List.map Indicate (registration l))
         ++ [AttachMs Monitor.TIMEOUT_REFRESH_MS].
Proof.
  cbv zeta. unfold Monitor.timeout_state. cbn [Monitor.state].
  rewrite configure_equations_unfold. cbn. repeat split.
  unfold issued. cbn [Monitor.out].
  rewrite <- app_assoc. apply drop_app_length.
Qed.

(** ** Sending without a peer (C6) *)

(** C6: with no peer connected, a timer fire in state Active still hands
    the one-byte Update-all command to the transport: [update_all] has no
    connection check, unlike [configure_equations] and [reset]. *)
Theorem update_all_sent_without_peer
    (l : list Equation.t) (pending : option Z) (evs : list event) :
  let m := Monitor.mk (mkServer 0) l Monitor.ACTIVE pending evs in
  getConnectedCount (Monitor.server m) = 0%nat
  /\ issued m (Monitor.timeout_state m) = [AttachMs 1500; Indicate [4]]
  /\ bytes_sent (issued m (Monitor.timeout_state m)) = 1
  /\ issued m (Monitor.update_all m) = [Indicate [4]].
Proof.
  cbv zeta. unfold Monitor.timeout_state, Monitor.update_all, issued.
  cbn [Monitor.state Monitor.out Monitor.attach_ms Monitor.set_state
       Monitor.indicate Monitor.server Monitor.eqs Monitor.t_state].
  rewrite <- !app_assoc, !drop_app_length. repeat split.
Qed.

(** ** Acknowledgements on the config characteristic (C7) *)

(** C7: in state Started, a write of exactly two bytes whose first byte is
    0 attaches the timer at TIMEOUT_REFRESH and moves the engine to
    Active; a write of any other length or first byte leaves the engine
    as it was. *)
Theorem config_onWrite_started (m : Monitor.t) (data : list Z) :
  Monitor.state m = Monitor.STARTED ->
  (List.length data = 2%nat /\ nth 0 data 0 = 0 ->
     Monitor.state (MonConfigCallbacks.onWrite data m) = Monitor.ACTIVE
     /\ Monitor.t_state (MonConfigCallbacks.onWrite data m)
        = Some Monitor.TIMEOUT_REFRESH_MS
     /\ issued m (MonConfigCallbacks.onWrite data m)
        = [AttachMs Monitor.TIMEOUT_REFRESH_MS])
  /\ (~ (List.length data = 2%nat /\ nth 0 data 0 = 0) ->
      MonConfigCallbacks.onWrite data m = m).
Proof.
  intros Hst. unfold MonConfigCallbacks.onWrite. split.
  - intros [Hlen Hfirst]. rewrite Hlen, Hfirst. cbn [Nat.eqb Z.eqb andb].
    unfold Monitor.timeout_reset. rewrite Hst. cbn. repeat split.
    unfold issued. apply drop_app_length.
  - intros Hno.
    destruct (Nat.eqb_spec (List.length data) 2) as [Hlen|Hlen];
      [|reflexivity].
    destruct (Z.eqb_spec (nth 0 data 0) 0) as [Hfirst|Hfirst];
      [|reflexivity].
    exfalso. apply Hno. split; assumption.
Qed.

(** C7 at the ack [0x00, 0x00] and at the refusal [0x01, 0x00], on a
    freshly constructed engine. *)
Lemma config_onWrite_started_witness :
  let m := Monitor.new (mkServer 1) in
  Monitor.state m = Monitor.STARTED
  /\ Monitor.state (MonConfigCallbacks.onWrite [0; 0] m) = Monitor.ACTIVE
  /\ Monitor.t_state (MonConfigCallbacks.onWrite [0; 0] m) = Some 1500
  /\ MonConfigCallbacks.onWrite [1; 0] m = m.
Proof.
  intros m.
  assert (Hst : Monitor.state m = Monitor.STARTED) by reflexivity.
  destruct (config_onWrite_started m [0; 0] Hst) as [Hack _].
  destruct (config_onWrite_started m [1; 0] Hst) as [_ Hnak].
  destruct Hack as (Ha & Ht & _); [split; reflexivity|].
  split; [exact Hst | split; [exact Ha | split; [exact Ht |]]].
  apply Hnak. intros [_ H]. discriminate H.
Defined.

(** ** The CAN-spoof frame (C9) *)

Lemma uint8_land (z : Z) : uint8 z = Z.land z 255.
Proof. unfold uint8. change 255 with (Z.ones 8). rewrite Z.land_ones by lia. reflexivity. Qed.

(** C9: [CANSpoof::update(id, data)] issues nothing when no peer is
    connected, and otherwise notifies exactly the five bytes
    [id & 0xFF, (id >> 8) & 0xFF, (id >> 16) & 0xFF, (id >> 24) & 0xFF, data];
    these are bytes, the first four are [id] in little-endian order, and
    [update(0x123, 7)] gives [0x23, 0x01, 0x00, 0x00, 0x07]. *)
Theorem CANSpoof_update_frame (server : BLEServer) (id data : Z) :
  0 <= id < 2 ^ 32 ->
  0 <= data < 256 ->
  let frame :=
    [ Z.land id 255; Z.land (Z.shiftr id 8) 255; Z.land (Z.shiftr id 16) 255;
      Z.land (Z.shiftr id 24) 255; data ] in
  (getConnectedCount server = 0%nat -> CANSpoof.update server id data = [])
  /\ (getConnectedCount server <> 0%nat ->
      CANSpoof.update server id data = [Notify frame]
      /\ CANSpoof.update server 0x123 7 = [Notify [0x23; 0x01; 0x00; 0x00; 0x07]])
  /\ Forall (fun b => 0 <= b < 256) frame
  /\ nth 0 frame 0 + 2 ^ 8 * nth 1 frame 0 + 2 ^ 16 * nth 2 frame 0
     + 2 ^ 24 * nth 3 frame 0 = id.
Proof.
  intros Hid Hdata frame. subst frame. unfold CANSpoof.update.
  repeat split.
  - intros ->. reflexivity.
  - destruct (Nat.eqb_spec (getConnectedCount server) 0); [contradiction|].
    rewrite !uint8_land, Z.shiftr_0_r. reflexivity.
  - destruct (Nat.eqb_spec (getConnectedCount server) 0); [contradiction|].
    reflexivity.
  - rewrite <- !uint8_land. unfold uint8.
    repeat (apply Forall_cons_2; [try apply Z.mod_pos_bound; lia|]).
    apply Forall_nil_2.
  - cbn [nth]. rewrite <- !uint8_land. unfold uint8.
    rewrite !Z.shiftr_div_pow2 by lia.
    change (2 ^ 8) with 256. change (2 ^ 16) with (256 * 256).
    change (2 ^ 24) with (256 * 256 * 256).
    change (2 ^ 32) with (256 * 256 * 256 * 256) in Hid.
    rewrite <- !Z.div_div by lia.
    assert (Htop : id / 256 / 256 / 256 < 256).
    { repeat (apply Z.div_lt_upper_bound; [lia|]). lia. }
    rewrite (Z.mod_small (id / 256 / 256 / 256)) by (split; [|exact Htop];
      repeat (apply Z.div_pos; [|lia]); lia).
    pose proof (Z.div_mod id 256).
    pose proof (Z.div_mod (id / 256) 256).
    pose proof (Z.div_mod (id / 256 / 256) 256).
    lia.
Qed.

(** C9 at [update(0x123, 7)] with one peer connected. *)
Lemma CANSpoof_update_frame_witness :
  0 <= 0x123 < 2 ^ 32 /\ 0 <= 7 < 256
  /\ CANSpoof.update (mkServer 1) 0x123 7 = [Notify [0x23; 0x01; 0x00; 0x00; 0x07]]
  /\ CANSpoof.update (mkServer 0) 0x123 7 = [].
Proof.
  assert (Hid : 0 <= 0x123 < 2 ^ 32) by lia.
  assert (Hdata : 0 <= 7 < 256) by lia.
  destruct (CANSpoof_update_frame (mkServer 1) 0x123 7 Hid Hdata) as (_ & Hon & _).
  destruct (CANSpoof_update_frame (mkServer 0) 0x123 7 Hid Hdata) as (Hoff & _).
  split; [exact Hid | split; [exact Hdata | split]].
  - apply Hon. cbn. discriminate.
  - apply Hoff. reflexivity.
Defined.

(** ** The value-write handler (C2, C3, C10) *)

Section ValueWrites.

Import Monitor MonNotifyCallbacks.

Lemma notify_loop_unfold (raw : list Z) (i : nat) (l : list Equation.t) :
  notify_loop raw i l =
  if decide (i < List.length raw)%nat
  then match read_record raw i with
       | Fault f => Fault f
       | Done (monitor_id, val_raw) =>
           match l !! Z.to_nat monitor_id with
           | None => Fault (EqsOutOfRange monitor_id)
           | Some eq =>
               notify_loop raw (i + 5)
                 (<[Z.to_nat monitor_id := Equation.update_from_raw val_raw eq]> l)
           end
       end
  else Done l.
Proof.
  rewrite notify_loop_equation_1.
  destruct (decide (i < List.length raw)%nat) as [Hlt|Hge].
  - rewrite notify_loop_clause_1_equation_1.
    destruct (read_record raw i) as [[monitor_id val_raw]|f].
    + rewrite notify_loop_clause_1_clause_2_equation_1.
      destruct (l !! Z.to_nat monitor_id) as [eq|].
      * apply notify_loop_clause_1_clause_2_clause_2_equation_1.
      * apply notify_loop_clause_1_clause_2_clause_2_equation_2.
    + apply notify_loop_clause_1_clause_2_equation_2.
  - apply notify_loop_clause_1_equation_2.
Qed.

(** A record that starts fewer than five bytes before the end of the
    payload cannot be read without leaving the payload. *)
Lemma read_record_short (raw : list Z) (i : nat) :
  (List.length raw < i + 5)%nat ->
  exists k, (List.length raw <= k)%nat /\ read_record raw i = Fault (ReadPastEnd k).
Proof.
  intros Hshort. unfold read_record, bind, read.
  destruct (raw !! i) as [b0|] eqn:H0;
    [|exists i; split; [apply lookup_ge_None_1, H0 | reflexivity]].
  destruct (raw !! (i + 1)%nat) as [b1|] eqn:H1;
    [|exists (i + 1)%nat; split; [apply lookup_ge_None_1, H1 | reflexivity]].
  destruct (raw !! (i + 2)%nat) as [b2|] eqn:H2;
    [|exists (i + 2)%nat; split; [apply lookup_ge_None_1, H2 | reflexivity]].
  destruct (raw !! (i + 3)%nat) as [b3|] eqn:H3;
    [|exists (i + 3)%nat; split; [apply lookup_ge_None_1, H3 | reflexivity]].
  destruct (raw !! (i + 4)%nat) as [b4|] eqn:H4;
    [|exists (i + 4)%nat; split; [apply lookup_ge_None_1, H4 | reflexivity]].
  apply lookup_lt_Some in H4. lia.
Qed.

(** The loop runs once for every started group of five bytes: when the
    bytes left are not a multiple of five it never completes. *)
Lemma notify_loop_partial_record (raw : list Z) :
  forall (r i : nat) (l : list Equation.t),
    (List.length raw - i <= r)%nat ->
    (i <= List.length raw)%nat ->
    ((List.length raw - i) mod 5 <> 0)%nat ->
    exists f, notify_loop raw i l = Fault f.
Proof.
  induction r as [|r IH]; intros i l Hr Hi Hmod.
  - replace (List.length raw - i)%nat with 0%nat in Hmod by lia.
    contradiction Hmod. reflexivity.
  - rewrite notify_loop_unfold.
    destruct (decide (i < List.length raw)%nat) as [Hlt|Hge].
    2:{ replace (List.length raw - i)%nat with 0%nat in Hmod by lia.
        contradiction Hmod. reflexivity. }
    destruct (le_lt_dec (i + 5) (List.length raw)) as [Hwhole|Hshort].
    + destruct (read_record raw i) as [[monitor_id val_raw]|f]; [|eauto].
      destruct (l !! Z.to_nat monitor_id) as [eq|]; [|eauto].
      apply IH; try lia.
      replace (List.length raw - i)%nat
        with (List.length raw - (i + 5) + 1 * 5)%nat in Hmod by lia.
      rewrite Nat.Div0.mod_add in Hmod. exact Hmod.
    + destruct (read_record_short raw i Hshort) as (k & _ & ->). eauto.
Qed.

(** A channel id outside the configured list ends the loop at once. *)
Lemma notify_loop_bad_channel (raw : list Z) (i : nat) (l : list Equation.t)
      (monitor_id val_raw : Z) :
  (i < List.length raw)%nat ->
  read_record raw i = Done (monitor_id, val_raw) ->
  (List.length l <= Z.to_nat monitor_id)%nat ->
  notify_loop raw i l = Fault (EqsOutOfRange monitor_id).
Proof.
  intros Hi Hrec Hid. rewrite notify_loop_unfold.
  destruct (decide (i < List.length raw)%nat); [|lia].
  rewrite Hrec, (lookup_ge_None_2 l) by exact Hid. reflexivity.
Qed.

Lemma read_record_whole (pre post : list Z) (id b1 b2 b3 b4 : Z) :
  read_record (pre ++ id :: b1 :: b2 :: b3 :: b4 :: post) (List.length pre)
  = Done (id, int32 (Z.lor (Z.lor (Z.lor (Z.shiftl b1 24) (Z.shiftl b2 16))
                                  (Z.shiftl b3 8)) b4)).
Proof.
  unfold read_record, bind, read.
  rewrite list_lookup_middle by reflexivity.
  rewrite !lookup_app_r by lia.
  replace (List.length pre + 1 - List.length pre)%nat with 1%nat by lia.
  replace (List.length pre + 2 - List.length pre)%nat with 2%nat by lia.
  replace (List.length pre + 3 - List.length pre)%nat with 3%nat by lia.
  replace (List.length pre + 4 - List.length pre)%nat with 4%nat by lia.
  reflexivity.
Qed.

(** Whole records with configured channel ids are consumed one per
    iteration, whatever follows them in the payload. *)
Lemma notify_loop_records (n : nat) (records : list (Z * list Z)) :
  Forall (fun r => 0 <= fst r < Z.of_nat n /\ List.length (snd r) = 4%nat) records ->
  forall (pre tail : list Z) (l : list Equation.t),
    List.length l = n ->
    exists l',
      List.length l' = n
      /\ notify_loop (pre ++ record_bytes records ++ tail) (List.length pre) l
         = notify_loop (pre ++ record_bytes records ++ tail)
             (List.length (pre ++ record_bytes records)) l'.
Proof.
  induction 1 as [|[id bs] records [Hid Hbs] Hrest IH]; intros pre tail l Hl.
  - exists l. split; [exact Hl|].
    unfold record_bytes. cbn [List.map List.concat]. rewrite app_nil_r. reflexivity.
  - cbn [fst snd] in Hid, Hbs.
    destruct bs as [|b1 [|b2 [|b3 [|b4 [|b5 bs]]]]]; try discriminate Hbs.
    assert (Hraw : forall rest,
               pre ++ (record_bytes ((id, [b1; b2; b3; b4]) :: records)) ++ rest
               = (pre ++ [id; b1; b2; b3; b4]) ++ record_bytes records ++ rest).
    { intros rest. unfold record_bytes. cbn [List.map List.concat fst snd app].
      rewrite <- app_assoc. reflexivity. }
    set (l1 := <[Z.to_nat id := Equation.update_from_raw
                   (int32 (Z.lor (Z.lor (Z.lor (Z.shiftl b1 24) (Z.shiftl b2 16))
                                        (Z.shiftl b3 8)) b4))
                   (default (Equation.new EmptyString Float32.one)
                            (l !! Z.to_nat id))]> l).
    destruct (IH (pre ++ [id; b1; b2; b3; b4]) tail l1) as (l' & Hl' & Hrun).
    { subst l1. rewrite length_insert. exact Hl. }
    assert (Hraw0 : pre ++ record_bytes ((id, [b1; b2; b3; b4]) :: records)
                    = (pre ++ [id; b1; b2; b3; b4]) ++ record_bytes records).
    { unfold record_bytes. cbn [List.map List.concat fst snd app].
      rewrite <- app_assoc. reflexivity. }
    exists l'. split; [exact Hl'|].
    rewrite Hraw0, !Hraw. rewrite <- Hrun.
    rewrite (notify_loop_unfold _ (List.length pre)).
    destruct (decide _) as [Hlt|Hge];
      [|rewrite !length_app in Hge; cbn [List.length] in Hge; lia].
    rewrite <- app_assoc. cbn [app]. rewrite read_record_whole.
    destruct (lookup_lt_is_Some_2 l (Z.to_nat id)) as [eq Heq]; [lia|].
    subst l1. rewrite Heq. cbn [default].
    rewrite length_app. cbn [List.length]. reflexivity.
Qed.

End ValueWrites.

(** C2: a record whose channel id is not a configured equation is not
    dropped.  Whenever such a record follows any number of whole records
    for configured equations, the handler indexes [eqs] outside the
    vector at that record, and whatever follows it in the payload is
    never decoded. *)
Theorem notify_onWrite_unknown_channel
    (m : Monitor.t) (good : list (Z * list Z)) (id b1 b2 b3 b4 : Z) (rest : list Z) :
  Forall (fun r => 0 <= fst r < Z.of_nat (List.length (Monitor.eqs m))
                   /\ List.length (snd r) = 4%nat) good ->
  Z.of_nat (List.length (Monitor.eqs m)) <= id ->
  MonNotifyCallbacks.onWrite (record_bytes good ++ [id; b1; b2; b3; b4] ++ rest) m
  = Fault (EqsOutOfRange id).
Proof.
  intros Hgood Hid. unfold MonNotifyCallbacks.onWrite.
  destruct (notify_loop_records _ good Hgood []
              ([id; b1; b2; b3; b4] ++ rest) (Monitor.eqs m) eq_refl)
    as (l' & Hl' & Hrun).
  cbn [app List.length] in Hrun |- *. rewrite Hrun.
  rewrite notify_loop_unfold.
  destruct (decide _) as [Hlt|Hge];
    [|rewrite !length_app in Hge; cbn [List.length] in Hge; lia].
  rewrite read_record_whole, (lookup_ge_None_2 l') by lia.
  reflexivity.
Qed.

(** C2 on an engine with two equations: the record (channel 5, raw 1000)
    followed by the record (channel 0, raw 1000). *)
Lemma notify_onWrite_unknown_channel_witness :
  let m := Monitor.add "speed" (S754_finite false 15099494 (-22))
             (Monitor.add "rpm*2" Float32.one (Monitor.new (mkServer 1))) in
  List.length (Monitor.eqs m) = 2%nat
  /\ MonNotifyCallbacks.onWrite [5; 0; 0; 3; 232; 0; 0; 0; 3; 232] m
     = Fault (EqsOutOfRange 5).
Proof.
  intros m. split; [reflexivity|].
  apply (notify_onWrite_unknown_channel m [] 5 0 0 3 232 [0; 0; 0; 3; 232]).
  - apply Forall_nil_2.
  - cbn. lia.
Defined.

(** C3: the handler runs its loop body for every started group of five
    bytes, not for every whole record.  On every payload whose length is
    not a multiple of five the handler fails to complete: it leaves the
    payload while reading the trailing bytes as a record (or meets an
    unconfigured channel id before that). *)
Theorem notify_onWrite_trailing_bytes (m : Monitor.t) (raw : list Z) :
  (List.length raw mod 5 <> 0)%nat ->
  exists f, MonNotifyCallbacks.onWrite raw m = Fault f.
Proof.
  intros Hmod. unfold MonNotifyCallbacks.onWrite.
  destruct (notify_loop_partial_record raw (List.length raw) 0 (Monitor.eqs m))
    as [f Hf]; try lia.
  - rewrite Nat.sub_0_r. exact Hmod.
  - rewrite Hf. eauto.
Qed.

(** C3 on seven bytes (one record and two trailing bytes), where the
    second iteration reads [raw[7]], and on a single byte, where the
    first iteration reads [raw[1]]. *)
Lemma notify_onWrite_trailing_bytes_witness :
  let m := Monitor.add "speed" (S754_finite false 15099494 (-22))
             (Monitor.add "rpm*2" Float32.one (Monitor.new (mkServer 1))) in
  (List.length [0; 0; 0; 3; 232; 1; 0] mod 5 <> 0)%nat
  /\ (exists f, MonNotifyCallbacks.onWrite [0; 0; 0; 3; 232; 1; 0] m = Fault f)
  /\ MonNotifyCallbacks.onWrite [0; 0; 0; 3; 232; 1; 0] m = Fault (ReadPastEnd 7)
  /\ MonNotifyCallbacks.onWrite [0] m = Fault (ReadPastEnd 1).
Proof.
  intros m.
  assert (Hmod : (List.length [0; 0; 0; 3; 232; 1; 0] mod 5 <> 0)%nat)
    by (cbn; lia).
  split; [exact Hmod|]. split; [|split; reflexivity].
  exact (notify_onWrite_trailing_bytes m [0; 0; 0; 3; 232; 1; 0] Hmod).
Defined.

(** C10: in state Started [data_valid()] is false, and every value write
    whose decoding completes leaves the engine in state Active with the
    timer attached at TIMEOUT_REFRESH and [data_valid()] true, without any
    ack on the config characteristic; the decoding does complete on every
    payload of whole records naming configured equations, the empty
    payload included. *)
Theorem notify_onWrite_started_activates (m : Monitor.t) (raw : list Z) :
  Monitor.state m = Monitor.STARTED ->
  Monitor.data_valid m = false
  /\ (forall m', MonNotifyCallbacks.onWrite raw m = Done m' ->
        Monitor.state m' = Monitor.ACTIVE
        /\ Monitor.t_state m' = Some Monitor.TIMEOUT_REFRESH_MS
        /\ Monitor.data_valid m' = true)
  /\ (whole_records (List.length (Monitor.eqs m)) raw ->
      exists m', MonNotifyCallbacks.onWrite raw m = Done m').
Proof.
  intros Hst. unfold Monitor.data_valid, MonNotifyCallbacks.onWrite.
  rewrite Hst. split; [reflexivity|]. split.
  - intros m' Hrun.
    destruct (MonNotifyCallbacks.notify_loop raw 0 (Monitor.eqs m)) as [l|f]; [|discriminate].
    injection Hrun as <-. unfold Monitor.timeout_reset.
    cbn [Monitor.state Monitor.set_eqs]. rewrite Hst. cbn. repeat split.
  - intros (records & -> & Hrecords).
    destruct (notify_loop_records _ records Hrecords [] [] (Monitor.eqs m) eq_refl)
      as (l' & _ & Hrun).
    cbn [app List.length] in Hrun. rewrite app_nil_r in Hrun. rewrite Hrun.
    rewrite notify_loop_unfold.
    destruct (decide _) as [Hlt|Hge]; [lia|]. eauto.
Qed.

(** C10 on the spec's scenario: two equations, no ack received, one value
    record for channel 0 carrying raw 1000. *)
Lemma notify_onWrite_started_activates_witness :
  let m := Monitor.add "speed" (S754_finite false 15099494 (-22))
             (Monitor.add "rpm*2" Float32.one (Monitor.new (mkServer 1))) in
  Monitor.state m = Monitor.STARTED
  /\ exists m', MonNotifyCallbacks.onWrite [0; 0; 0; 3; 232] m = Done m'
                /\ Monitor.state m' = Monitor.ACTIVE
                /\ Monitor.data_valid m' = true
                /\ List.map Equation.value (Monitor.eqs m')
                   = [Float32.of_int32 1000; Float32.NAN].
Proof.
  intros m.
  assert (Hst : Monitor.state m = Monitor.STARTED) by reflexivity.
  destruct (notify_onWrite_started_activates m [0; 0; 0; 3; 232] Hst)
    as (_ & Hact & Htotal).
  destruct Htotal as [m' Hrun].
  { exists [(0, [0; 0; 3; 232])]. split; [reflexivity|].
    apply Forall_cons_2; [cbn; lia | apply Forall_nil_2]. }
  split; [exact Hst|]. exists m'.
  destruct (Hact m' Hrun) as (Ha & _ & Hv).
  split; [exact Hrun | split; [exact Ha | split; [exact Hv|]]].
  assert (Hm' : Done m' = MonNotifyCallbacks.onWrite [0; 0; 0; 3; 232] m)
    by (symmetry; exact Hrun).
  vm_compute in Hm'. injection Hm' as ->. reflexivity.
Defined.

(** ** binary32 results are numbers *)

Section Rounding.

Variables prec emax : Z.






End Rounding.



(** ** update_from_raw (C8) *)





(** ** Registration of an expression of any length *)

Lemma chunks_sizes (k : nat) (text : string) :
  forall (r i : nat) (s : Z),
    (String.length text - i <= r)%nat ->
    Forall (fun c => (1 <= List.length (chunk_text c) <= 17)%nat
                     /\ List.length c = (3 + List.length (chunk_text c))%nat)
           (chunks_from k text i s).
Proof.
  induction r as [|r IH]; intros i s Hr; rewrite chunks_from_unfold;
    destruct (decide (i < String.length text)%nat) as [Hlt|Hge]; try lia;
    try apply Forall_nil_2.
  apply Forall_cons_2; [|apply IH; unfold Monitor.max_payload; lia].
  cbn [app List.length]. rewrite chunk_text_header, length_take, length_drop,
    string_bytes_length.
  unfold cut.
  destruct (decide (Monitor.max_payload < String.length text - i)%nat);
    cbn [snd]; unfold Monitor.max_payload in *; lia.
Qed.

(** Every expression, whatever its length, is cut into
    [ceil(L / 17)] chunks of 1 to 17 text bytes behind a 3-byte header (so
    of at most 20 bytes), and the text fragments in order give back the
    expression. *)
Theorem equation_chunks_roundtrip (k : nat) (text : string) :
  let cs := equation_chunks k text in
  reassemble cs = text
  /\ Forall (fun c => (1 <= List.length (chunk_text c) <= 17)%nat
                      /\ List.length c = (3 + List.length (chunk_text c))%nat) cs
  /\ List.length cs = ((String.length text + 16) / 17)%nat.
Proof.
  cbv zeta. unfold equation_chunks, reassemble. repeat split.
  - rewrite (chunks_text k text (String.length text)) by lia.
    apply bytes_string_bytes.
  - apply (chunks_sizes k text (String.length text)). lia.
  - rewrite (chunks_count k text (String.length text)) by lia.
    rewrite Nat.sub_0_r. reflexivity.
Qed.

Lemma chunks_indexes (k : nat) (text : string) :
  forall (r i : nat) (s : Z),
    (String.length text - i <= r)%nat ->
    List.map chunk_index (chunks_from k text i s)
    = repeat (Z.of_nat k mod 256) (List.length (chunks_from k text i s)).
Proof.
  induction r as [|r IH]; intros i s Hr; rewrite chunks_from_unfold;
    destruct (decide (i < String.length text)%nat) as [Hlt|Hge]; try lia;
    try reflexivity.
  cbn [List.map List.length repeat].
  rewrite IH by (unfold Monitor.max_payload; lia). reflexivity.
Qed.

(** The header bytes of the chunks of an equation at index [k]: the
    index byte is [k mod 256], the sequence number of the [j]-th chunk
    is [j mod 256], and the kind is 2 on all chunks but the last and 3
    on the last.  Both bytes wrap: equations 256 apart share an index
    byte, and an expression of more than 4352 bytes reuses sequence
    numbers. *)
Theorem equation_chunks_headers (k : nat) (text : string) :
  let cs := equation_chunks k text in
  List.map chunk_index cs = repeat (Z.of_nat k mod 256) (List.length cs)
  /\ List.map chunk_seq cs
     = List.map (fun j => Z.of_nat j mod 256) (seq 0 (List.length cs))
  /\ List.map chunk_kind cs
     = repeat 2 (List.length cs - 1)
         ++ (if (String.length text =? 0)%nat then [] else [3]).
Proof.
  cbv zeta. unfold equation_chunks. repeat split.
  - apply (chunks_indexes k text (String.length text)). lia.
  - rewrite (chunks_seqs k text (String.length text)) by lia.
    apply List.map_ext. intros j. reflexivity.
  - rewrite (chunks_kinds k text (String.length text)) by lia.
    destruct (decide (0 < String.length text)%nat);
      destruct (Nat.eqb_spec (String.length text) 0); try lia; reflexivity.
Qed.

(** ** Construction, reset and the liveness cycle *)

Lemma new_unfold (srv : BLEServer) :
  Monitor.new srv
  = Monitor.mk srv [] Monitor.STARTED (Some Monitor.TIMEOUT_REFRESH_MS)
      [AttachMs Monitor.TIMEOUT_REFRESH_MS].
Proof.
  unfold Monitor.new. rewrite configure_equations_unfold. cbn.
  destruct (getConnectedCount srv =? 0)%nat; reflexivity.
Qed.

Lemma add_all (specs : list (string * Float32.float)) :
  forall m : Monitor.t,
    fold_left (fun m s => Monitor.add (fst s) (snd s) m) specs m
    = Monitor.set_eqs
        (Monitor.eqs m ++ List.map (fun s => Equation.new (fst s) (snd s)) specs) m.
Proof.
  induction specs as [|s specs IH]; intros m; cbn [fold_left List.map].
  - rewrite app_nil_r. destruct m; reflexivity.
  - rewrite IH. unfold Monitor.add, Monitor.set_eqs.
    cbn [Monitor.eqs Monitor.server Monitor.state Monitor.t_state Monitor.out].
    rewrite <- app_assoc. reflexivity.
Qed.

Lemma indicated_AttachMs (ms : Z) (l : list event) :
  indicated (AttachMs ms :: l) = indicated l.
Proof. reflexivity. Qed.

(** What a timer expiry in state Started indicates. *)
Lemma timer_started_indicated (m : Monitor.t) :
  Monitor.state m = Monitor.STARTED ->
  indicated (issued m (Monitor.timeout_state m))
  = (if (getConnectedCount (Monitor.server m) =? 0)%nat then []
     else registration (Monitor.eqs m)).
Proof.
  destruct m as [srv l st p evs]. cbn [Monitor.state]. intros ->.
  unfold Monitor.timeout_state. cbn [Monitor.state].
  rewrite configure_equations_unfold.
  cbn [Monitor.attach_ms Monitor.eqs Monitor.server Monitor.state
       Monitor.t_state Monitor.out]. cbn zeta.
  erewrite issued_app by (cbn [Monitor.out]; rewrite <- app_assoc; reflexivity).
  cbn [app]. rewrite indicated_AttachMs, indicated_app.
  destruct (getConnectedCount srv =? 0)%nat;
    rewrite ?indicated_Indicate, ?app_nil_r; reflexivity.
Qed.

(** The constructor and [add] never send: the constructor runs the
    registration on an empty list, and [add] only appends.  The equations
    added after construction, in the order added, are registered when the
    timer first fires, if a peer is connected by then, whether or not one
    was connected at construction. *)
Theorem added_equations_registered_on_timer
    (srv : BLEServer) (specs : list (string * Float32.float)) (peers : nat) :
  let m := fold_left (fun m s => Monitor.add (fst s) (snd s) m) specs
             (Monitor.new srv) in
  Monitor.eqs m = List.map (fun s => Equation.new (fst s) (snd s)) specs
  /\ Monitor.state m = Monitor.STARTED
  /\ indicated (Monitor.out m) = []
  /\ indicated (issued (set_connected peers m)
                  (impl.t_state_callback (set_connected peers m)))
     = (if (peers =? 0)%nat then [] else registration (Monitor.eqs m)).
Proof.
  cbv zeta. rewrite add_all, new_unfold.
  split; [reflexivity|]. split; [reflexivity|]. split; [reflexivity|].
  unfold impl.t_state_callback. rewrite timer_started_indicated by reflexivity.
  reflexivity.
Qed.

(** What [reset()] issues. *)
Lemma reset_out (m : Monitor.t) :
  exists tail : list event,
    Monitor.out (Monitor.reset m) = Monitor.out m ++ tail
    /\ indicated tail
       = (if (getConnectedCount (Monitor.server m) =? 0)%nat then []
          else [0] :: registration (Monitor.eqs m)).
Proof.
  unfold Monitor.reset. rewrite clear_loop_id, configure_equations_unfold.
  destruct m as [[n] l st p evs].
  cbn [Monitor.server Monitor.eqs Monitor.state Monitor.out Monitor.set_state
       getConnectedCount].
  destruct n as [|n]; cbn [Nat.ltb Nat.leb Nat.eqb Monitor.server Monitor.eqs
    Monitor.state Monitor.out Monitor.set_state Monitor.indicate
    Monitor.t_state getConnectedCount]; cbn zeta.
  - eexists. split; [reflexivity | reflexivity].
  - eexists. split; [rewrite <- app_assoc; reflexivity|].
    cbn [app]. rewrite indicated_cons, indicated_app, indicated_Indicate,
      app_nil_r. reflexivity.
Qed.

(** [reset()] in any state, with a peer connected, indicates the Reset
    command and then the whole registration; with no peer it indicates
    nothing.  Either way it ends in Started with the timer at
    TIMEOUT_REFRESH and [data_valid()] false. *)
Theorem reset_sends_reset_then_registration (m : Monitor.t) :
  indicated (issued m (Monitor.reset m))
  = (if (getConnectedCount (Monitor.server m) =? 0)%nat then []
     else [0] :: registration (Monitor.eqs m))
  /\ Monitor.state (Monitor.reset m) = Monitor.STARTED
  /\ Monitor.t_state (Monitor.reset m) = Some Monitor.TIMEOUT_REFRESH_MS
  /\ Monitor.data_valid (Monitor.reset m) = false.
Proof.
  destruct (reset_fields m) as (_ & Hs & Ht).
  destruct (reset_out m) as (tail & Hout & Hind).
  split; [|split; [exact Hs | split; [exact Ht|]]].
  - rewrite (issued_app _ _ _ Hout). exact Hind.
  - unfold Monitor.data_valid. rewrite Hs. reflexivity.
Qed.

(** The liveness cycle: from Active, a first timer expiry asks for an
    update of all values and waits in ForcedRefresh ([data_valid()] still
    true); a second expiry with no write in between resets the session to
    Started ([data_valid()] false), sending Reset and the registration if
    a peer is connected.  The equations are what they were. *)
Theorem two_expiries_reset_the_session
    (srv : BLEServer) (l : list Equation.t) (pending : option Z) (evs : list event) :
  let m := Monitor.mk srv l Monitor.ACTIVE pending evs in
  let m1 := impl.t_state_callback m in
  let m2 := impl.t_state_callback m1 in
  Monitor.state m1 = Monitor.FORCED_REFRESH
  /\ Monitor.data_valid m1 = true
  /\ Monitor.state m2 = Monitor.STARTED
  /\ Monitor.data_valid m2 = false
  /\ Monitor.t_state m2 = Some Monitor.TIMEOUT_REFRESH_MS
  /\ Monitor.eqs m2 = l
  /\ indicated (issued m m2)
     = [4] :: (if (getConnectedCount srv =? 0)%nat then []
               else [0] :: registration l).
Proof.
  cbv zeta. unfold impl.t_state_callback.
  set (m := Monitor.mk srv l Monitor.ACTIVE pending evs).
  assert (H1 : Monitor.timeout_state m
               = Monitor.mk srv l Monitor.FORCED_REFRESH (Some 1500)
                   (evs ++ [AttachMs 1500; Indicate [4]])).
  { unfold Monitor.timeout_state, Monitor.update_all, Monitor.indicate,
      Monitor.set_state, Monitor.attach_ms. cbn. rewrite <- app_assoc. reflexivity. }
  rewrite H1.
  set (m1 := Monitor.mk srv l Monitor.FORCED_REFRESH (Some 1500)
               (evs ++ [AttachMs 1500; Indicate [4]])).
  change (Monitor.timeout_state m1) with (Monitor.reset m1).
  destruct (reset_fields m1) as (He & Hs & Ht).
  destruct (reset_out m1) as [tail [Hout Hind]].
  repeat split; try assumption.
  - unfold Monitor.data_valid. rewrite Hs. reflexivity.
  - erewrite issued_app
      by (rewrite Hout; subst m m1; cbn [Monitor.out]; rewrite <- app_assoc;
          reflexivity).
    cbn [app]. rewrite indicated_AttachMs, indicated_cons. f_equal. exact Hind.
Qed.

(** ** Decoding value records *)

Lemma lor_shiftl_low (a b n : Z) :
  0 <= n -> 0 <= b < 2 ^ n -> Z.lor (Z.shiftl a n) b = a * 2 ^ n + b.
Proof.
  intros Hn Hb. rewrite <- Z.shiftl_mul_pow2 by exact Hn.
  rewrite <- Z.lxor_lor, <- Z.add_nocarry_lxor; try reflexivity.
  all: apply Z.bits_inj'; intros i Hi; rewrite Z.land_spec, Z.bits_0;
    destruct (Z.lt_ge_cases i n) as [Hlt|Hge];
    [ rewrite Z.shiftl_spec_low by exact Hlt; reflexivity
    | rewrite <- (Z.mod_small b (2 ^ n)) by exact Hb;
      rewrite Z.mod_pow2_bits_high by lia; apply andb_false_r ].
Qed.

(** The source's shifts and ors put the four bytes side by side. *)
Lemma decode_word (b1 b2 b3 b4 : Z) :
  0 <= b2 < 256 -> 0 <= b3 < 256 -> 0 <= b4 < 256 ->
  Z.lor (Z.lor (Z.lor (Z.shiftl b1 24) (Z.shiftl b2 16)) (Z.shiftl b3 8)) b4
  = b1 * 2 ^ 24 + b2 * 2 ^ 16 + b3 * 2 ^ 8 + b4.
Proof.
  intros H2 H3 H4.
  replace (Z.shiftl b1 24) with (Z.shiftl (Z.shiftl b1 8) 16)
    by (rewrite Z.shiftl_shiftl by lia; reflexivity).
  rewrite <- Z.shiftl_lor, (lor_shiftl_low b1 b2 8) by (cbn; lia).
  replace (Z.shiftl (b1 * 2 ^ 8 + b2) 16)
    with (Z.shiftl (Z.shiftl (b1 * 2 ^ 8 + b2) 8) 8)
    by (rewrite Z.shiftl_shiftl by lia; reflexivity).
  rewrite <- Z.shiftl_lor, (lor_shiftl_low _ b3 8) by (cbn; lia).
  rewrite (lor_shiftl_low _ b4 8) by (cbn; lia).
  change (2 ^ 8) with 256. change (2 ^ 16) with 65536.
  change (2 ^ 24) with 16777216. lia.
Qed.

Lemma read_record_value (pre post : list Z) (id : Z) (bs : list Z) :
  List.length bs = 4%nat ->
  Forall (fun b => 0 <= b < 256) bs ->
  MonNotifyCallbacks.read_record (pre ++ id :: bs ++ post) (List.length pre)
  = Done (id, record_value bs).
Proof.
  intros Hlen Hbs.
  destruct bs as [|b1 [|b2 [|b3 [|b4 [|b5 bs]]]]]; try discriminate Hlen.
  cbn [app]. rewrite read_record_whole. unfold record_value. cbn [nth].
  apply Forall_cons_1 in Hbs as [_ Hbs].
  apply Forall_cons_1 in Hbs as [H2 Hbs].
  apply Forall_cons_1 in Hbs as [H3 Hbs].
  apply Forall_cons_1 in Hbs as [H4 _].
  rewrite decode_word by assumption. reflexivity.
Qed.

Lemma apply_record_length (l : list Equation.t) (r : Z * list Z) :
  List.length (apply_record l r) = List.length l.
Proof.
  unfold apply_record. destruct (l !! Z.to_nat (fst r)); [|reflexivity].
  apply length_insert.
Qed.

(** The loop applies whole records one after the other. *)
Lemma notify_loop_fold (n : nat) (records : list (Z * list Z)) :
  Forall (record_ok n) records ->
  forall (pre tail : list Z) (l : list Equation.t),
    List.length l = n ->
    MonNotifyCallbacks.notify_loop (pre ++ record_bytes records ++ tail)
      (List.length pre) l
    = MonNotifyCallbacks.notify_loop (pre ++ record_bytes records ++ tail)
        (List.length (pre ++ record_bytes records))
        (fold_left apply_record records l).
Proof.
  induction 1 as [|[id bs] records (Hid & Hlen & Hbs) Hrest IH];
    intros pre tail l Hl.
  - unfold record_bytes. cbn [List.map List.concat fold_left].
    rewrite app_nil_r. reflexivity.
  - cbn [fst snd] in Hid, Hlen, Hbs.
    assert (Hraw : forall rest,
               pre ++ record_bytes ((id, bs) :: records) ++ rest
               = (pre ++ id :: bs) ++ record_bytes records ++ rest).
    { intros rest. unfold record_bytes. cbn [List.map List.concat fst snd].
      rewrite <- !app_assoc. reflexivity. }
    assert (Hraw0 : pre ++ record_bytes ((id, bs) :: records)
                    = (pre ++ id :: bs) ++ record_bytes records).
    { unfold record_bytes. cbn [List.map List.concat fst snd].
      rewrite <- !app_assoc. reflexivity. }
    rewrite Hraw0, !Hraw. cbn [fold_left].
    rewrite <- IH by (rewrite apply_record_length; exact Hl).
    rewrite (notify_loop_unfold _ (List.length pre)).
    destruct (decide _) as [Hlt|Hge];
      [|rewrite !length_app in Hge; cbn [List.length] in Hge; lia].
    rewrite <- (app_assoc pre). cbn [app].
    rewrite read_record_value by assumption.
    unfold apply_record. cbn [fst snd].
    destruct (lookup_lt_is_Some_2 l (Z.to_nat id)) as [eq Heq]; [lia|].
    rewrite Heq, length_app. cbn [List.length]. rewrite Hlen.
    reflexivity.
Qed.

Lemma notify_onWrite_fold (m : Monitor.t) (records : list (Z * list Z)) :
  Forall (record_ok (List.length (Monitor.eqs m))) records ->
  MonNotifyCallbacks.onWrite (record_bytes records) m
  = Done (Monitor.timeout_reset true
            (Monitor.set_eqs (fold_left apply_record records (Monitor.eqs m)) m)).
Proof.
  intros Hrecords. unfold MonNotifyCallbacks.onWrite.
  pose proof (notify_loop_fold _ records Hrecords [] [] (Monitor.eqs m) eq_refl)
    as Hrun.
  cbn [app List.length] in Hrun. rewrite app_nil_r in Hrun. rewrite Hrun.
  rewrite notify_loop_unfold.
  destruct (decide _) as [Hlt|Hge]; [lia|]. reflexivity.
Qed.

Lemma update_from_raw_registered (raw : Z) (eq : Equation.t) :
  registered (Equation.update_from_raw raw eq) = registered eq.
Proof. reflexivity. Qed.

Lemma apply_record_registered (l : list Equation.t) (r : Z * list Z) :
  List.map registered (apply_record l r) = List.map registered l.
Proof.
  unfold apply_record. destruct (l !! Z.to_nat (fst r)) as [eq|] eqn:Hk;
    [|reflexivity].
  apply list_eq. intros k. rewrite !list_lookup_fmap.
  destruct (decide (k = Z.to_nat (fst r))) as [->|Hne].
  - rewrite list_lookup_insert_eq by (apply lookup_lt_Some in Hk; exact Hk).
    rewrite Hk. reflexivity.
  - rewrite list_lookup_insert_ne by congruence. reflexivity.
Qed.

Lemma fold_apply_record_registered (records : list (Z * list Z)) :
  forall l, List.map registered (fold_left apply_record records l)
            = List.map registered l.
Proof.
  induction records as [|r records IH]; intros l; cbn [fold_left];
    [reflexivity|].
  rewrite IH. apply apply_record_registered.
Qed.

Lemma fold_apply_record_other (k : nat) (records : list (Z * list Z)) :
  Forall (fun r => Z.to_nat (fst r) <> k) records ->
  forall l, fold_left apply_record records l !! k = l !! k.
Proof.
  induction 1 as [|r records Hr Hrest IH]; intros l; cbn [fold_left];
    [reflexivity|].
  rewrite IH. unfold apply_record.
  destruct (l !! Z.to_nat (fst r)); [|reflexivity].
  apply list_lookup_insert_ne. exact Hr.
Qed.

(** A value write made of whole records for configured equations
    completes, and leaves the equations as if [update_from_raw] had been
    called for each record in payload order with the signed big-endian
    value of its four bytes; the list keeps its length. *)
Theorem value_write_applies_records_in_order
    (m : Monitor.t) (records : list (Z * list Z)) :
  Forall (record_ok (List.length (Monitor.eqs m))) records ->
  exists m',
    MonNotifyCallbacks.onWrite (record_bytes records) m = Done m'
    /\ Monitor.eqs m' = fold_left apply_record records (Monitor.eqs m)
    /\ List.length (Monitor.eqs m') = List.length (Monitor.eqs m).
Proof.
  intros Hrecords. rewrite (notify_onWrite_fold m records Hrecords).
  eexists. split; [reflexivity|].
  assert (He : forall x, Monitor.eqs (Monitor.timeout_reset true x) = Monitor.eqs x).
  { intros x. unfold Monitor.timeout_reset. destruct (Monitor.state x); reflexivity. }
  rewrite He. cbn [Monitor.eqs Monitor.set_eqs]. split; [reflexivity|].
  clear He Hrecords. generalize (Monitor.eqs m) as l.
  induction records as [|r records IH]; intros l; cbn [fold_left];
    [reflexivity|].
  rewrite IH. apply apply_record_length.
Qed.

(** Two records for channels 0 and 1 and a second record for channel 0:
    the later value (2000) is the one channel 0 ends with. *)
Lemma value_write_applies_records_in_order_witness :
  let m := Monitor.add "speed" (S754_finite false 15099494 (-22))
             (Monitor.add "rpm*2" Float32.one (Monitor.new (mkServer 1))) in
  let records := [(0, [0; 0; 3; 232]); (1, [0; 0; 0; 36]); (0, [0; 0; 7; 208])] in
  Forall (record_ok (List.length (Monitor.eqs m))) records
  /\ exists m',
       MonNotifyCallbacks.onWrite (record_bytes records) m = Done m'
       /\ List.map Equation.value (Monitor.eqs m')
          = [Float32.of_int32 2000; S754_finite false 10485760 (-20)].
Proof.
  intros m records.
  assert (Hok : Forall (record_ok (List.length (Monitor.eqs m))) records).
  { repeat (apply Forall_cons_2;
            [split; [cbn; lia | split; [reflexivity|]];
             repeat (apply Forall_cons_2; [lia|]); apply Forall_nil_2 |]).
    apply Forall_nil_2. }
  split; [exact Hok|].
  destruct (value_write_applies_records_in_order m records Hok)
    as (m' & Hrun & Heqs & _).
  exists m'. split; [exact Hrun|]. rewrite Heqs. reflexivity.
Defined.

(** A value write never changes the text or the scale of an equation,
    and leaves every equation whose index no record names exactly as it
    was, value included. *)
Theorem value_write_touches_named_channels_only
    (m m' : Monitor.t) (records : list (Z * list Z)) :
  Forall (record_ok (List.length (Monitor.eqs m))) records ->
  MonNotifyCallbacks.onWrite (record_bytes records) m = Done m' ->
  List.map registered (Monitor.eqs m') = List.map registered (Monitor.eqs m)
  /\ forall k : nat,
       Forall (fun r => fst r <> Z.of_nat k) records ->
       Monitor.eqs m' !! k = Monitor.eqs m !! k.
Proof.
  intros Hrecords Hrun.
  rewrite (notify_onWrite_fold m records Hrecords) in Hrun.
  injection Hrun as <-.
  assert (He : forall x, Monitor.eqs (Monitor.timeout_reset true x) = Monitor.eqs x).
  { intros x. unfold Monitor.timeout_reset. destruct (Monitor.state x); reflexivity. }
  rewrite He. cbn [Monitor.eqs Monitor.set_eqs]. split.
  - apply fold_apply_record_registered.
  - intros k Hk. apply fold_apply_record_other.
    apply Forall_forall. intros r Hr Heq.
    rewrite Forall_forall in Hk, Hrecords.
    destruct (Hrecords r Hr) as ((H0 & _) & _).
    apply (Hk r Hr). lia.
Qed.

(** A record for channel 0 leaves channel 1 alone. *)
Lemma value_write_touches_named_channels_only_witness :
  let m := Monitor.add "speed" (S754_finite false 15099494 (-22))
             (Monitor.add "rpm*2" Float32.one (Monitor.new (mkServer 1))) in
  exists m',
    MonNotifyCallbacks.onWrite (record_bytes [(0, [0; 0; 3; 232])]) m = Done m'
    /\ List.map registered (Monitor.eqs m') = List.map registered (Monitor.eqs m)
    /\ Monitor.eqs m' !! 1%nat = Monitor.eqs m !! 1%nat.
Proof.
  intros m.
  assert (Hok : Forall (record_ok (List.length (Monitor.eqs m))) [(0, [0; 0; 3; 232])]).
  { apply Forall_cons_2; [|apply Forall_nil_2].
    split; [cbn; lia | split; [reflexivity|]].
    repeat (apply Forall_cons_2; [lia|]). apply Forall_nil_2. }
  destruct (MonNotifyCallbacks.onWrite (record_bytes [(0, [0; 0; 3; 232])]) m)
    as [m'|f] eqn:Hrun; [|vm_compute in Hrun; discriminate Hrun].
  exists m'. split; [reflexivity|].
  destruct (value_write_touches_named_channels_only m m' _ Hok Hrun) as [Hreg Hk].
  split; [exact Hreg|]. apply Hk.
  apply Forall_cons_2; [cbn; lia | apply Forall_nil_2].
Defined.

(** ** Signed values on the wire *)

Lemma be32_bytes (v : Z) : Forall (fun b => 0 <= b < 256) (be32 v).
Proof.
  unfold be32, uint8.
  repeat (apply Forall_cons_2; [apply Z.mod_pos_bound; lia|]).
  apply Forall_nil_2.
Qed.

(** Decoding inverts the big-endian two's-complement encoding. *)
Lemma record_value_be32 (v : Z) :
  - 2 ^ 31 <= v < 2 ^ 31 -> record_value (be32 v) = v.
Proof.
  intros Hv. unfold record_value, be32, uint8, int32. cbn [nth].
  rewrite !Z.shiftr_div_pow2 by lia.
  change (2 ^ 8) with 256. change (2 ^ 16) with (256 * 256).
  change (2 ^ 24) with (256 * 256 * 256).
  change (2 ^ 31) with 2147483648 in *.
  change (2 ^ 32) with 4294967296.
  rewrite <- !Z.div_div by lia.
  pose proof (Z.div_mod v 256).
  pose proof (Z.div_mod (v / 256) 256).
  pose proof (Z.div_mod (v / 256 / 256) 256).
  pose proof (Z.div_mod (v / 256 / 256 / 256) 256).
  pose proof (Z.mod_pos_bound v 256).
  pose proof (Z.mod_pos_bound (v / 256) 256).
  pose proof (Z.mod_pos_bound (v / 256 / 256) 256).
  pose proof (Z.mod_pos_bound (v / 256 / 256 / 256) 256).
  set (q := v / 256 / 256 / 256 / 256) in *.
  replace ((v / 256 / 256 / 256) mod 256 * (256 * 256 * 256)
           + (v / 256 / 256) mod 256 * (256 * 256)
           + (v / 256) mod 256 * 256 + v mod 256 + 2147483648)
    with (v + 2147483648 + (- q) * 4294967296) by lia.
  rewrite Z.mod_add by lia. rewrite Z.mod_small by lia. lia.
Qed.

(** A record carrying the big-endian two's-complement bytes of any
    32-bit signed integer [v], negative ones included, for a configured
    channel makes the handler call [update_from_raw(v)] on that equation:
    the value becomes NoData for [v = INT32_MAX] and the scaled product
    otherwise. *)
Theorem value_record_decodes_signed
    (m : Monitor.t) (k : nat) (eq : Equation.t) (v : Z) :
  Monitor.eqs m !! k = Some eq ->
  - 2 ^ 31 <= v < 2 ^ 31 ->
  exists m',
    MonNotifyCallbacks.onWrite (Z.of_nat k :: be32 v) m = Done m'
    /\ Monitor.eqs m' = <[k := Equation.update_from_raw v eq]> (Monitor.eqs m)
    /\ (v = INT32_MAX ->
        Equation.value <$> Monitor.eqs m' !! k = Some Float32.NAN)
    /\ (v <> INT32_MAX ->
        Equation.value <$> Monitor.eqs m' !! k
        = Some (Float32.mul (Float32.of_int32 v) (Equation.scale_inv eq))).
Proof.
  intros Hk Hv.
  assert (Hok : Forall (record_ok (List.length (Monitor.eqs m))) [(Z.of_nat k, be32 v)]).
  { apply Forall_cons_2; [|apply Forall_nil_2].
    split; [cbn [fst]; apply lookup_lt_Some in Hk; lia|].
    split; [reflexivity | apply be32_bytes]. }
  pose proof (notify_onWrite_fold m _ Hok) as Hrun.
  unfold record_bytes in Hrun. cbn [List.map List.concat fst snd] in Hrun.
  rewrite app_nil_r in Hrun. rewrite Hrun. eexists. split; [reflexivity|].
  assert (He : forall x, Monitor.eqs (Monitor.timeout_reset true x) = Monitor.eqs x).
  { intros x. unfold Monitor.timeout_reset. destruct (Monitor.state x); reflexivity. }
  rewrite He. cbn [Monitor.eqs Monitor.set_eqs fold_left].
  unfold apply_record. cbn [fst snd]. rewrite Nat2Z.id, Hk, record_value_be32 by exact Hv.
  split; [reflexivity|].
  rewrite list_lookup_insert_eq by (apply lookup_lt_Some in Hk; exact Hk).
  cbn [fmap option_fmap option_map Equation.value Equation.update_from_raw].
  split; intros Hs.
  - rewrite Hs. reflexivity.
  - destruct (Z.eqb_spec v INT32_MAX); [contradiction | reflexivity].
Qed.

(** The record [01 FF FF FF 9C] sets channel 1 from raw -100, and
    [01 7F FF FF FF] sets it to NoData. *)
Lemma value_record_decodes_signed_witness :
  let m := Monitor.add "speed" (S754_finite false 15099494 (-22))
             (Monitor.add "rpm*2" Float32.one (Monitor.new (mkServer 1))) in
  be32 (-100) = [255; 255; 255; 156]
  /\ be32 INT32_MAX = [127; 255; 255; 255]
  /\ (exists m', MonNotifyCallbacks.onWrite [1; 255; 255; 255; 156] m = Done m'
       /\ Equation.value <$> Monitor.eqs m' !! 1%nat
          = Some (Float32.mul (Float32.of_int32 (-100))
                    (Float32.div Float32.one (S754_finite false 15099494 (-22)))))
  /\ (exists m', MonNotifyCallbacks.onWrite [1; 127; 255; 255; 255] m = Done m'
       /\ Equation.value <$> Monitor.eqs m' !! 1%nat = Some Float32.NAN).
Proof.
  intros m.
  assert (Hk : Monitor.eqs m !! 1%nat
               = Some (Equation.new "speed" (S754_finite false 15099494 (-22))))
    by reflexivity.
  split; [reflexivity|]. split; [reflexivity|]. split.
  - destruct (value_record_decodes_signed m 1 _ (-100) Hk) as (m' & Hrun & _ & _ & Hval);
      [unfold INT32_MAX; lia|].
    exists m'. split; [exact Hrun|]. apply Hval. discriminate.
  - destruct (value_record_decodes_signed m 1 _ INT32_MAX Hk) as (m' & Hrun & _ & Hnan & _);
      [unfold INT32_MAX; lia|].
    exists m'. split; [exact Hrun|]. apply Hnan. reflexivity.
Defined.

(** ** What every history of calls preserves *)

Lemma chunks_event_ok (k : nat) (text : string) :
  forall (r i : nat) (s : Z),
    (String.length text - i <= r)%nat ->
    Forall event_ok (List.map Indicate (chunks_from k text i s)).
Proof.
  induction r as [|r IH]; intros i s Hr; rewrite chunks_from_unfold;
    destruct (decide (i < String.length text)%nat) as [Hlt|Hge]; try lia;
    try apply Forall_nil_2.
  cbn [List.map]. apply Forall_cons_2; [|apply IH; unfold Monitor.max_payload; lia].
  cbn [event_ok]. right. right. unfold chunk_kind. cbn [app nth List.length].
  rewrite length_take, length_drop, string_bytes_length. unfold cut.
  destruct (decide (Monitor.max_payload < String.length text - i)%nat);
    cbn [fst snd]; unfold Monitor.max_payload in *; split; auto; lia.
Qed.

Lemma registration_event_ok (l : list Equation.t) :
  Forall event_ok (List.map Indicate (registration l)).
Proof.
  unfold registration.
  assert (H : forall j,
             Forall event_ok
               (List.map Indicate
                  (List.concat
                     (imap (fun k eq => equation_chunks (j + k) (Equation.equation eq))
                           l)))).
  { induction l as [|eq l IH]; intros j; cbn [imap List.concat List.map];
      [apply Forall_nil_2|].
    rewrite List.map_app. apply Forall_app_2.
    - apply (chunks_event_ok _ _ (String.length (Equation.equation eq))). lia.
    - rewrite (imap_ext _ (fun k eq0 => equation_chunks (S j + k) (Equation.equation eq0)));
        [apply IH|].
      intros k eq0 _. unfold compose. f_equal. lia. }
  apply (H 0%nat).
Qed.

(** [configure_equations], [timeout_reset] and [reset] attach the timer
    themselves: whatever was pending, 1500 ms is pending afterwards. *)
Lemma configure_equations_ok (m : Monitor.t) :
  Monitor.state m <> Monitor.UNINITIALIZED ->
  Forall event_ok (Monitor.out m) ->
  engine_ok (Monitor.configure_equations m).
Proof.
  intros Hst Hout. rewrite configure_equations_unfold. cbn zeta.
  destruct (Monitor.state m) eqn:Hs; try contradiction;
    (split; [cbn [Monitor.state]; discriminate|]);
    (split; [reflexivity|]); cbn [Monitor.out];
    apply Forall_app_2; try exact Hout;
    (apply Forall_app_2; [|apply Forall_cons_2; [right; reflexivity | apply Forall_nil_2]]);
    destruct (getConnectedCount (Monitor.server m) =? 0)%nat;
    try apply Forall_nil_2; apply registration_event_ok.
Qed.

Lemma timeout_reset_ok (b : bool) (m : Monitor.t) :
  Monitor.state m <> Monitor.UNINITIALIZED ->
  Forall event_ok (Monitor.out m) ->
  engine_ok (Monitor.timeout_reset b m).
Proof.
  intros Hst Hout. unfold Monitor.timeout_reset.
  destruct (Monitor.state m) eqn:Hs; try contradiction; destruct b;
    (split; [cbn [Monitor.state Monitor.set_state Monitor.attach_ms];
             rewrite ?Hs; discriminate|]);
    (split; [reflexivity|]);
    cbn [Monitor.out Monitor.set_state Monitor.attach_ms];
    (apply Forall_app_2; [exact Hout|]);
    (apply Forall_cons_2; [right; reflexivity | apply Forall_nil_2]).
Qed.

Lemma reset_ok (m : Monitor.t) :
  Forall event_ok (Monitor.out m) -> engine_ok (Monitor.reset m).
Proof.
  intros Hout. unfold Monitor.reset. rewrite clear_loop_id.
  apply configure_equations_ok; [cbn; discriminate|].
  destruct (0 <? getConnectedCount (Monitor.server m))%nat;
    cbn [Monitor.out Monitor.set_state Monitor.indicate]; try exact Hout.
  apply Forall_app_2; [exact Hout|].
  apply Forall_cons_2; [left; reflexivity | apply Forall_nil_2].
Qed.

Lemma timeout_state_ok (m : Monitor.t) :
  engine_ok m -> engine_ok (Monitor.timeout_state m).
Proof.
  intros Hok. pose proof Hok as (Hst & Ht & Hout). unfold Monitor.timeout_state.
  destruct (Monitor.state m) eqn:Hs; try contradiction.
  - apply configure_equations_ok; [cbn; rewrite Hs; discriminate|].
    cbn [Monitor.out Monitor.attach_ms].
    apply Forall_app_2; [exact Hout|].
    apply Forall_cons_2; [left; reflexivity | apply Forall_nil_2].
  - split; [cbn; discriminate|]. split; [reflexivity|].
    cbn [Monitor.out Monitor.update_all Monitor.indicate Monitor.set_state
         Monitor.attach_ms].
    apply Forall_app_2;
      [apply Forall_app_2;
         [exact Hout | apply Forall_cons_2; [right; reflexivity | apply Forall_nil_2]]|].
    apply Forall_cons_2; [right; left; reflexivity | apply Forall_nil_2].
  - apply reset_ok, Hout.
Qed.

Lemma step_ok (c : call) (m m' : Monitor.t) :
  engine_ok m -> step c m = Done m' -> engine_ok m'.
Proof.
  intros Hok Hstep. pose proof Hok as (Hst & Ht & Hout).
  destruct c as [equation scale| | | |data|raw|n]; cbn [step] in Hstep.
  - injection Hstep as <-. exact Hok.
  - injection Hstep as <-. split; [exact Hst|]. split; [exact Ht|].
    cbn [Monitor.out Monitor.update_all Monitor.indicate].
    apply Forall_app_2; [exact Hout|].
    apply Forall_cons_2; [right; left; reflexivity | apply Forall_nil_2].
  - injection Hstep as <-. apply reset_ok, Hout.
  - injection Hstep as <-. apply timeout_state_ok, Hok.
  - injection Hstep as <-. unfold MonConfigCallbacks.onWrite.
    destruct (_ && _); [apply timeout_reset_ok; assumption | exact Hok].
  - unfold MonNotifyCallbacks.onWrite in Hstep.
    destruct (MonNotifyCallbacks.notify_loop raw 0 (Monitor.eqs m)) as [l|f];
      [|discriminate Hstep].
    injection Hstep as <-. apply timeout_reset_ok; assumption.
  - injection Hstep as <-. exact Hok.
Qed.

Lemma run_ok (cs : list call) :
  forall m m', engine_ok m -> run cs m = Done m' -> engine_ok m'.
Proof.
  induction cs as [|c cs IH]; intros m m' Hok Hrun; cbn [run] in Hrun.
  - injection Hrun as <-. exact Hok.
  - destruct (step c m) as [m1|f] eqn:Hstep; [|discriminate Hrun].
    apply (IH m1 m'); [apply (step_ok c m m1 Hok Hstep) | exact Hrun].
Qed.

Lemma new_ok (srv : BLEServer) : engine_ok (Monitor.new srv).
Proof.
  rewrite new_unfold. split; [discriminate|]. split; [reflexivity|].
  apply Forall_cons_2; [right; reflexivity | apply Forall_nil_2].
Qed.

(** From construction on, whatever is called and whatever is written,
    the engine is never back in Uninitialized and, whenever a call has
    returned, its timer is attached with a period of 1500 ms: the timer
    is never left detached, and the 1000 ms of TIMEOUT_INIT is never the
    period left pending. *)
Theorem timer_always_pending_at_1500
    (srv : BLEServer) (cs : list call) (m : Monitor.t) :
  run cs (Monitor.new srv) = Done m ->
  Monitor.state m <> Monitor.UNINITIALIZED
  /\ Monitor.t_state m = Some 1500.
Proof.
  intros Hrun. destruct (run_ok cs _ m (new_ok srv) Hrun) as (Hst & Ht & _).
  split; assumption.
Qed.

(** Two equations added, a peer connecting, the timer firing, an ack,
    one value record and the timer firing again. *)
Lemma timer_always_pending_at_1500_witness :
  let cs := [Add "rpm*2" Float32.one; Add "speed" (S754_finite false 15099494 (-22));
             Peers 1; TimerFires; ConfigWrite [0; 0];
             NotifyWrite [0; 0; 0; 3; 232]; TimerFires] in
  exists m, run cs (Monitor.new (mkServer 0)) = Done m
            /\ Monitor.state m = Monitor.FORCED_REFRESH
            /\ Monitor.t_state m = Some 1500.
Proof.
  intros cs.
  destruct (run cs (Monitor.new (mkServer 0))) as [m|f] eqn:Hrun;
    [|vm_compute in Hrun; discriminate Hrun].
  exists m. split; [reflexivity|].
  destruct (timer_always_pending_at_1500 (mkServer 0) cs m Hrun) as [_ Ht].
  split; [|exact Ht].
  assert (Hm : Done m = run cs (Monitor.new (mkServer 0))) by (symmetry; exact Hrun).
  vm_compute in Hm. injection Hm as ->. reflexivity.
Defined.

(** From construction on, whatever is called and whatever is written,
    everything the engine indicates on the config characteristic is the
    one-byte Reset or Update-all command or a chunk of kind 2 or 3 of 4 to
    20 bytes; it never notifies, and it attaches its timer at 1000 or
    1500 ms only. *)
Theorem engine_output_discipline
    (srv : BLEServer) (cs : list call) (m : Monitor.t) :
  run cs (Monitor.new srv) = Done m ->
  Forall event_ok (Monitor.out m).
Proof.
  intros Hrun. destruct (run_ok cs _ m (new_ok srv) Hrun) as (_ & _ & Hout).
  exact Hout.
Qed.

(** An expression of 18 characters registered twice, with an ack, an
    Update-all and a Reset in between: payloads of 20, 4, 1, 1, 20 and 4
    bytes. *)
Lemma engine_output_discipline_witness :
  let cs := [Add "rpm*2+speed/3.6+10" Float32.one; Peers 1; TimerFires;
             ConfigWrite [0; 0]; TimerFires; TimerFires] in
  exists m, run cs (Monitor.new (mkServer 0)) = Done m
            /\ Forall event_ok (Monitor.out m)
            /\ List.map (@List.length Z) (indicated (Monitor.out m))
               = [20; 4; 1; 1; 20; 4]%nat.
Proof.
  intros cs.
  destruct (run cs (Monitor.new (mkServer 0))) as [m|f] eqn:Hrun;
    [|vm_compute in Hrun; discriminate Hrun].
  exists m. split; [reflexivity|].
  split; [exact (engine_output_discipline (mkServer 0) cs m Hrun)|].
  assert (Hm : Done m = run cs (Monitor.new (mkServer 0))) by (symmetry; exact Hrun).
  vm_compute in Hm. injection Hm as ->. reflexivity.
Defined.

(** ** Equations keep their index, text and scale *)

Lemma notify_loop_registered (raw : list Z) :
  forall (r i : nat) (l l' : list Equation.t),
    (List.length raw - i <= r)%nat ->
    MonNotifyCallbacks.notify_loop raw i l = Done l' ->
    List.map registered l' = List.map registered l.
Proof.
  induction r as [|r IH]; intros i l l' Hr Hrun;
    rewrite notify_loop_unfold in Hrun;
    destruct (decide (i < List.length raw)%nat) as [Hlt|Hge]; try lia;
    try (injection Hrun as <-; reflexivity).
  destruct (MonNotifyCallbacks.read_record raw i) as [[monitor_id val_raw]|f];
    [|discriminate Hrun].
  destruct (l !! Z.to_nat monitor_id) as [eq|] eqn:Hk; [|discriminate Hrun].
  apply IH in Hrun; [|lia]. rewrite Hrun.
  apply list_eq. intros k. rewrite !list_lookup_fmap.
  destruct (decide (k = Z.to_nat monitor_id)) as [->|Hne].
  - rewrite list_lookup_insert_eq by (apply lookup_lt_Some in Hk; exact Hk).
    rewrite Hk. reflexivity.
  - rewrite list_lookup_insert_ne by congruence. reflexivity.
Qed.

Lemma step_registered (c : call) (m m' : Monitor.t) :
  step c m = Done m' ->
  List.map registered (Monitor.eqs m) `prefix_of` List.map registered (Monitor.eqs m').
Proof.
  assert (He : forall b x, Monitor.eqs (Monitor.timeout_reset b x) = Monitor.eqs x).
  { intros b x. unfold Monitor.timeout_reset.
    destruct (Monitor.state x), b; reflexivity. }
  intros Hstep.
  destruct c as [equation scale| | | |data|raw|n]; cbn [step] in Hstep.
  - injection Hstep as <-. cbn [Monitor.add Monitor.set_eqs Monitor.eqs].
    rewrite List.map_app. apply prefix_app_r. reflexivity.
  - injection Hstep as <-. reflexivity.
  - injection Hstep as <-. rewrite (proj1 (reset_fields m)). reflexivity.
  - injection Hstep as <-. unfold impl.t_state_callback, Monitor.timeout_state.
    destruct (Monitor.state m).
    + reflexivity.
    + rewrite (proj1 (proj2 (configure_equations_fields _))). reflexivity.
    + reflexivity.
    + rewrite (proj1 (reset_fields m)). reflexivity.
  - injection Hstep as <-. unfold MonConfigCallbacks.onWrite.
    destruct (_ && _); [rewrite He|]; reflexivity.
  - unfold MonNotifyCallbacks.onWrite in Hstep.
    destruct (MonNotifyCallbacks.notify_loop raw 0 (Monitor.eqs m)) as [l|f] eqn:Hloop;
      [|discriminate Hstep].
    injection Hstep as <-. rewrite He. cbn [Monitor.set_eqs Monitor.eqs].
    rewrite (notify_loop_registered raw (List.length raw) 0 _ _ ltac:(lia) Hloop).
    reflexivity.
  - injection Hstep as <-. reflexivity.
Qed.

(** Whatever is called and whatever is written, an equation is never
    removed or moved and its text and inverse scale never change: the
    equations an engine has stay at their indexes, as registered, and
    [add] only appends behind them. *)
Theorem equations_keep_index_text_and_scale
    (cs : list call) (m m' : Monitor.t) :
  run cs m = Done m' ->
  List.map registered (Monitor.eqs m) `prefix_of` List.map registered (Monitor.eqs m').
Proof.
  revert m. induction cs as [|c cs IH]; intros m Hrun; cbn [run] in Hrun.
  - injection Hrun as <-. reflexivity.
  - destruct (step c m) as [m1|f] eqn:Hstep; [|discriminate Hrun].
    etransitivity; [apply (step_registered c m m1 Hstep) | apply IH, Hrun].
Qed.

(** An engine with one equation through a value write, a reset and
    another [add]: equation 0 is still ["rpm*2"] with inverse scale 1. *)
Lemma equations_keep_index_text_and_scale_witness :
  let m := Monitor.add "rpm*2" Float32.one (Monitor.new (mkServer 1)) in
  let cs := [NotifyWrite [0; 0; 0; 3; 232]; Reset;
             Add "speed" (S754_finite false 15099494 (-22)); TimerFires] in
  exists m', run cs m = Done m'
             /\ List.map registered (Monitor.eqs m)
                `prefix_of` List.map registered (Monitor.eqs m')
             /\ registered <$> Monitor.eqs m' !! 0%nat
                = Some ("rpm*2"%string, Float32.one).
Proof.
  intros m cs.
  destruct (run cs m) as [m'|f] eqn:Hrun; [|vm_compute in Hrun; discriminate Hrun].
  exists m'. split; [reflexivity|].
  pose proof (equations_keep_index_text_and_scale cs m m' Hrun) as Hpre.
  split; [exact Hpre|].
  assert (Hm : Done m' = run cs m) by (symmetry; exact Hrun).
  vm_compute in Hm. injection Hm as ->. reflexivity.
Defined.

(** ** Writes while a refresh is pending *)

(** In ForcedRefresh, a successful ack and a completed value write both
    cancel the pending reset: the engine is back in Active with the timer
    at TIMEOUT_REFRESH, nothing is sent, and the next expiry asks for an
    update again instead of resetting. *)
Theorem write_in_forced_refresh_recovers (m : Monitor.t) :
  Monitor.state m = Monitor.FORCED_REFRESH ->
  (forall x : Z,
      let m' := MonConfigCallbacks.onWrite [0; x] m in
      Monitor.state m' = Monitor.ACTIVE
      /\ issued m m' = [AttachMs Monitor.TIMEOUT_REFRESH_MS]
      /\ indicated (issued m' (impl.t_state_callback m')) = [[4]])
  /\ (forall (raw : list Z) (m' : Monitor.t),
         MonNotifyCallbacks.onWrite raw m = Done m' ->
         Monitor.state m' = Monitor.ACTIVE
         /\ issued m m' = [AttachMs Monitor.TIMEOUT_REFRESH_MS]
         /\ indicated (issued m' (impl.t_state_callback m')) = [[4]]).
Proof.
  intros Hst.
  assert (Hreset : forall x : Monitor.t,
             Monitor.state x = Monitor.FORCED_REFRESH ->
             Monitor.out x = Monitor.out m ->
             let m' := Monitor.timeout_reset true x in
             Monitor.state m' = Monitor.ACTIVE
             /\ issued m m' = [AttachMs Monitor.TIMEOUT_REFRESH_MS]
             /\ indicated (issued m' (impl.t_state_callback m')) = [[4]]).
  { intros x Hx Hout. unfold Monitor.timeout_reset. rewrite Hx. cbn zeta.
    split; [reflexivity|]. split.
    - apply issued_app. cbn [Monitor.out Monitor.set_state Monitor.attach_ms].
      rewrite Hout. reflexivity.
    - unfold impl.t_state_callback, Monitor.timeout_state.
      cbn [Monitor.state Monitor.set_state].
      erewrite issued_app
        by (cbn [Monitor.out Monitor.update_all Monitor.indicate Monitor.set_state
                 Monitor.attach_ms]; rewrite <- app_assoc; reflexivity).
      reflexivity. }
  split.
  - intros x. unfold MonConfigCallbacks.onWrite. cbn [List.length Nat.eqb nth Z.eqb andb].
    apply Hreset; [exact Hst | reflexivity].
  - intros raw m' Hrun. unfold MonNotifyCallbacks.onWrite in Hrun.
    destruct (MonNotifyCallbacks.notify_loop raw 0 (Monitor.eqs m)) as [l|f];
      [|discriminate Hrun].
    injection Hrun as <-. apply Hreset; [exact Hst | reflexivity].
Qed.

(** An Active engine whose timer fired once, then an ack [00 00]. *)
Lemma write_in_forced_refresh_recovers_witness :
  let m := impl.t_state_callback
             (Monitor.mk (mkServer 1) [Equation.new "rpm*2" Float32.one]
                Monitor.ACTIVE (Some 1500) []) in
  Monitor.state m = Monitor.FORCED_REFRESH
  /\ Monitor.state (MonConfigCallbacks.onWrite [0; 0] m) = Monitor.ACTIVE
  /\ exists m', MonNotifyCallbacks.onWrite [0; 0; 0; 3; 232] m = Done m'
                /\ Monitor.state m' = Monitor.ACTIVE.
Proof.
  intros m.
  assert (Hst : Monitor.state m = Monitor.FORCED_REFRESH) by reflexivity.
  destruct (write_in_forced_refresh_recovers m Hst) as [Hack Hval].
  split; [exact Hst|]. split; [exact (proj1 (Hack 0))|].
  destruct (MonNotifyCallbacks.onWrite [0; 0; 0; 3; 232] m) as [m'|f] eqn:Hrun;
    [|vm_compute in Hrun; discriminate Hrun].
  exists m'. split; [reflexivity | exact (proj1 (Hval _ m' Hrun))].
Defined.

(** ** CAN-spoof frames are distinct *)

Lemma le32_sum (id : Z) :
  0 <= id < 2 ^ 32 ->
  uint8 (Z.shiftr id 0) + 2 ^ 8 * uint8 (Z.shiftr id 8)
  + 2 ^ 16 * uint8 (Z.shiftr id 16) + 2 ^ 24 * uint8 (Z.shiftr id 24) = id.
Proof.
  intros Hid. unfold uint8. rewrite !Z.shiftr_div_pow2 by lia.
  change (2 ^ 0) with 1. rewrite Z.div_1_r.
  change (2 ^ 8) with 256. change (2 ^ 16) with (256 * 256).
  change (2 ^ 24) with (256 * 256 * 256).
  change (2 ^ 32) with (256 * 256 * 256 * 256) in Hid.
  rewrite <- !Z.div_div by lia.
  assert (Htop : id / 256 / 256 / 256 < 256).
  { repeat (apply Z.div_lt_upper_bound; [lia|]). lia. }
  rewrite (Z.mod_small (id / 256 / 256 / 256)) by (split; [|exact Htop];
    repeat (apply Z.div_pos; [|lia]); lia).
  pose proof (Z.div_mod id 256).
  pose proof (Z.div_mod (id / 256) 256).
  pose proof (Z.div_mod (id / 256 / 256) 256).
  lia.
Qed.

(** With a peer connected, [update] always issues exactly one notify of
    exactly five bytes and never an indicate, and two calls issue the
    same frame only for the same [id] and [data]: the frame determines
    both. *)
Theorem CANSpoof_update_injective (server : BLEServer) (id id' data data' : Z) :
  getConnectedCount server <> 0%nat ->
  0 <= id < 2 ^ 32 -> 0 <= id' < 2 ^ 32 ->
  (exists frame, CANSpoof.update server id data = [Notify frame]
                 /\ List.length frame = 5%nat)
  /\ (CANSpoof.update server id data = CANSpoof.update server id' data' ->
      id = id' /\ data = data').
Proof.
  intros Hpeer Hid Hid'. unfold CANSpoof.update.
  destruct (Nat.eqb_spec (getConnectedCount server) 0); [contradiction|].
  split; [eexists; split; reflexivity|].
  intros Heq. injection Heq as H0 H1 H2 H3 H4.
  split; [|exact H4].
  rewrite <- (le32_sum id Hid), <- (le32_sum id' Hid'), H0, H1, H2, H3.
  reflexivity.
Qed.

Lemma CANSpoof_update_injective_witness :
  (exists frame, CANSpoof.update (mkServer 2) 0x7E8 200 = [Notify frame]
                 /\ List.length frame = 5%nat)
  /\ (CANSpoof.update (mkServer 2) 0x7E8 200 = CANSpoof.update (mkServer 2) 0x7E8 200 ->
      0x7E8 = 0x7E8 /\ 200 = 200).
Proof.
  apply (CANSpoof_update_injective (mkServer 2) 0x7E8 0x7E8 200 200).
  - cbn. discriminate.
  - lia.
  - lia.
Defined.

(** ** Retrying the registration *)

Lemma timer_started_out (m : Monitor.t) :
  Monitor.state m = Monitor.STARTED ->
  exists tail : list event,
    Monitor.timeout_state m
    = Monitor.mk (Monitor.server m) (Monitor.eqs m) Monitor.STARTED
        (Some Monitor.TIMEOUT_REFRESH_MS) (Monitor.out m ++ tail)
    /\ indicated tail
       = (if (getConnectedCount (Monitor.server m) =? 0)%nat then []
          else registration (Monitor.eqs m)).
Proof.
  destruct m as [srv l st p evs]. cbn [Monitor.state]. intros ->.
  unfold Monitor.timeout_state. cbn [Monitor.state].
  rewrite configure_equations_unfold.
  cbn [Monitor.attach_ms Monitor.eqs Monitor.server Monitor.state
       Monitor.t_state Monitor.out]. cbn zeta.
  eexists. split; [rewrite <- app_assoc; reflexivity|].
  cbn [app]. rewrite indicated_AttachMs, indicated_app.
  destruct (getConnectedCount srv =? 0)%nat;
    rewrite ?indicated_Indicate, ?app_nil_r; reflexivity.
Qed.

Lemma concat_repeat_snoc {A : Type} (x : list A) (n : nat) :
  List.concat (repeat x (S n)) = List.concat (repeat x n) ++ x.
Proof.
  induction n as [|n IH].
  - cbn. rewrite app_nil_r. reflexivity.
  - change (List.concat (repeat x (S (S n))))
      with (x ++ List.concat (repeat x (S n))).
    rewrite IH at 1. cbn [repeat List.concat]. rewrite <- app_assoc. reflexivity.
Qed.

(** While the engine stays in Started (no ack and no value write
    arrives), every timer expiry sends the whole registration again: after
    [n] expiries the engine is still in Started and has indicated the
    registration [n] times over, or nothing at all if no peer is
    connected. *)
Theorem started_resends_registration_every_expiry (m : Monitor.t) (n : nat) :
  Monitor.state m = Monitor.STARTED ->
  let m' := Nat.iter n impl.t_state_callback m in
  Monitor.state m' = Monitor.STARTED
  /\ Monitor.eqs m' = Monitor.eqs m
  /\ indicated (issued m m')
     = List.concat
         (repeat (if (getConnectedCount (Monitor.server m) =? 0)%nat then []
                  else registration (Monitor.eqs m)) n).
Proof.
  intros Hst. cbv zeta.
  assert (H : exists tail,
             Nat.iter n impl.t_state_callback m
             = Monitor.mk (Monitor.server m) (Monitor.eqs m) Monitor.STARTED
                 (Monitor.t_state (Nat.iter n impl.t_state_callback m))
                 (Monitor.out m ++ tail)
             /\ indicated tail
                = List.concat
                    (repeat (if (getConnectedCount (Monitor.server m) =? 0)%nat
                             then [] else registration (Monitor.eqs m)) n)).
  { induction n as [|n IH].
    - exists []. cbn [Nat.iter repeat List.concat nat_rect]. rewrite app_nil_r.
      split; [|reflexivity]. destruct m; cbn in Hst |- *. rewrite Hst. reflexivity.
    - destruct IH as (tail & Hm & Hind).
      change (Nat.iter (S n) impl.t_state_callback m)
        with (Monitor.timeout_state (Nat.iter n impl.t_state_callback m)).
      set (mn := Nat.iter n impl.t_state_callback m) in *.
      assert (Hstn : Monitor.state mn = Monitor.STARTED) by (rewrite Hm; reflexivity).
      destruct (timer_started_out mn Hstn) as (tail' & Hstep & Hind').
      exists (tail ++ tail'). rewrite Hstep. split.
      + rewrite Hm. cbn [Monitor.server Monitor.eqs Monitor.out Monitor.t_state].
        rewrite <- app_assoc. reflexivity.
      + rewrite indicated_app, Hind, Hind', Hm.
        cbn [Monitor.server Monitor.eqs]. symmetry. apply concat_repeat_snoc. }
  destruct H as (tail & Hm & Hind).
  split; [rewrite Hm; reflexivity|]. split; [rewrite Hm; reflexivity|].
  rewrite (issued_app m _ tail) by (rewrite Hm; reflexivity). exact Hind.
Qed.

(** Three expiries on a freshly built engine with one equation and one
    peer: the chunk of ["rpm*2"] is indicated three times. *)
Lemma started_resends_registration_every_expiry_witness :
  let m := Monitor.add "rpm*2" Float32.one (Monitor.new (mkServer 1)) in
  Monitor.state m = Monitor.STARTED
  /\ indicated (issued m (Nat.iter 3 impl.t_state_callback m))
     = [[3; 0; 0; 114; 112; 109; 42; 50];
        [3; 0; 0; 114; 112; 109; 42; 50];
        [3; 0; 0; 114; 112; 109; 42; 50]].
Proof.
  intros m.
  assert (Hst : Monitor.state m = Monitor.STARTED) by reflexivity.
  split; [exact Hst|].
  destruct (started_resends_registration_every_expiry m 3 Hst) as (_ & _ & Hind).
  rewrite Hind. reflexivity.
Defined.

(** ** Scales the constructor does not refuse *)

Lemma mul_infinity (x : Float32.float) (s : bool) :
  Float32.is_nan (Float32.mul x (S754_infinity s)) = true
  \/ Float32.is_infinity (Float32.mul x (S754_infinity s)) = true.
Proof. destruct x; cbn; auto. Qed.

(** The constructor accepts a scale of zero: the stored inverse is then
    an infinity, and no update can ever leave a finite value.  Every raw
    value gives NoData or an infinity, and raw 0 gives NoData. *)
Theorem zero_scale_never_finite (equation : string) (sign : bool) (raw : Z) :
  let eq0 := Equation.new equation (S754_zero sign) in
  let eq := Equation.update_from_raw raw eq0 in
  Float32.is_infinity (Equation.scale_inv eq) = true
  /\ (Float32.is_nan (Equation.value eq) = true
      \/ Float32.is_infinity (Equation.value eq) = true)
  /\ Equation.value (Equation.update_from_raw 0 eq0) = Float32.NAN.
Proof.
  cbv zeta. unfold Equation.update_from_raw, Equation.new.
  cbn [Equation.scale_inv Equation.value Equation.equation].
  change (Float32.div Float32.one (S754_zero sign))
    with (S754_infinity (xorb false sign)).
  split; [reflexivity|]. split; [|reflexivity].
  destruct (raw =? INT32_MAX); [left; reflexivity | apply mul_infinity].
Qed.






(** ** The default scale *)

Lemma digits2_pos_lower (p : positive) :
  2 ^ (Z.pos (digits2_pos p) - 1) <= Z.pos p.
Proof.
  induction p as [p IH|p IH|]; cbn [digits2_pos]; [| |cbn; lia];
    rewrite Pos2Z.inj_succ;
    replace (Z.succ (Z.pos (digits2_pos p)) - 1)
      with (Z.succ (Z.pos (digits2_pos p) - 1)) by lia;
    rewrite Z.pow_succ_r by lia; lia.
Qed.

Lemma digits2_pos_iter_xO (p n : positive) :
  digits2_pos (Pos.iter xO p n) = (digits2_pos p + n)%positive.
Proof.
  induction n as [|n IH] using Pos.peano_ind.
  - cbn. rewrite Pos.add_1_r. reflexivity.
  - rewrite Pos.iter_succ. cbn [digits2_pos]. rewrite IH, Pos.add_succ_r.
    reflexivity.
Qed.

Lemma pos_iter_xO (p n : positive) :
  Z.pos (Pos.iter xO p n) = Z.pos p * 2 ^ Z.pos n.
Proof.
  induction n as [|n IH] using Pos.peano_ind.
  - cbn. lia.
  - rewrite Pos.iter_succ, Pos2Z.inj_xO, IH, Pos2Z.inj_succ, Z.pow_succ_r by lia.
    lia.
Qed.

(** A 24-bit mantissa with an exponent in range needs no rounding. *)
Lemma binary_round_aux_canonical (s : bool) (m : positive) (e : Z) :
  digits2_pos m = 24%positive ->
  - 149 <= e <= 104 ->
  binary_round_aux Float32.prec Float32.emax s (Z.pos m) e loc_Exact
  = S754_finite s m e.
Proof.
  intros Hd He. unfold binary_round_aux, shr_fexp. cbn [Zdigits2]. rewrite Hd.
  replace (fexp Float32.prec Float32.emax (24 + e) - e) with 0
    by (unfold fexp, emin, Float32.prec, Float32.emax; lia).
  cbn [shr shr_record_of_loc shr_m loc_of_shr_record round_nearest_even Zdigits2].
  rewrite Hd.
  replace (fexp Float32.prec Float32.emax (24 + e) - e) with 0
    by (unfold fexp, emin, Float32.prec, Float32.emax; lia).
  cbn [shr shr_record_of_loc shr_m].
  destruct (Z.leb_spec e (Float32.emax - Float32.prec)); [reflexivity|].
  unfold Float32.emax, Float32.prec in *. lia.
Qed.

(** Integers of up to 24 bits convert to float without rounding. *)
Lemma of_int32_pos_small (p : positive) :
  Z.pos p < 2 ^ 24 ->
  exists (m : positive) (e : Z),
    (forall s, binary_round Float32.prec Float32.emax s p 0 = S754_finite s m e)
    /\ digits2_pos m = 24%positive
    /\ - 23 <= e <= 0
    /\ Z.pos m = Z.pos p * 2 ^ (- e).
Proof.
  intros Hp. pose proof (digits2_pos_lower p) as Hlow.
  assert (Hd : Z.pos (digits2_pos p) <= 24).
  { destruct (Z.le_gt_cases (Z.pos (digits2_pos p)) 24) as [H|H]; [exact H|].
    exfalso. assert (2 ^ 24 <= 2 ^ (Z.pos (digits2_pos p) - 1))
      by (apply Z.pow_le_mono_r; lia). lia. }
  unfold binary_round, shl_align.
  replace (fexp Float32.prec Float32.emax (Z.pos (digits2_pos p) + 0) - 0)
    with (Z.pos (digits2_pos p) - 24)
    by (unfold fexp, emin, Float32.prec, Float32.emax; lia).
  destruct (Z.pos (digits2_pos p) - 24) as [|d|d] eqn:Hshift; try lia.
  - assert (Hdig : digits2_pos p = 24%positive) by (apply Pos2Z.inj; lia).
    exists p, 0. split; [|split; [exact Hdig | split; [lia|]]].
    + intros s. apply binary_round_aux_canonical; [exact Hdig | lia].
    + cbn. lia.
  - exists (Pos.iter xO p d),
      (fexp Float32.prec Float32.emax (Z.pos (digits2_pos p) + 0)).
    assert (He : fexp Float32.prec Float32.emax (Z.pos (digits2_pos p) + 0)
                 = Z.neg d)
      by (unfold fexp, emin, Float32.prec, Float32.emax; lia).
    rewrite He.
    assert (Hdig : digits2_pos (Pos.iter xO p d) = 24%positive).
    { rewrite digits2_pos_iter_xO. apply Pos2Z.inj. rewrite Pos2Z.inj_add. lia. }
    split; [|split; [exact Hdig | split; [lia|]]].
    + intros s. apply binary_round_aux_canonical; [exact Hdig | lia].
    + rewrite pos_iter_xO. reflexivity.
Qed.

(** Multiplying a normal number by [1.0f] changes nothing. *)
Lemma mul_one_canonical (s : bool) (m : positive) (e : Z) :
  digits2_pos m = 24%positive ->
  - 126 <= e <= 104 ->
  Float32.mul (S754_finite s m e) Float32.one = S754_finite s m e.
Proof.
  intros Hd He. unfold Float32.mul, Float32.one.
  change (SFone Float32.prec Float32.emax) with (S754_finite false 8388608 (-23)).
  cbn [SFmul]. rewrite Pos.mul_comm, xorb_false_r.
  unfold binary_round_aux, shr_fexp.
  match goal with
  | |- context [(8388608 * m)%positive] =>
      let t := eval cbv in (8388608 * m)%positive in
      change (8388608 * m)%positive with t
  end.
  cbn [Zdigits2 digits2_pos]. rewrite Hd.
  match goal with
  | |- context [Z.pos ?d + (e + -23)] =>
      let t := eval cbv in d in change d with t
  end.
  replace (fexp Float32.prec Float32.emax (47 + (e + -23)) - (e + -23))
    with 23
    by (unfold fexp, emin, Float32.prec, Float32.emax; lia).
  cbn [shr shr_record_of_loc SpecFloat.iter_pos shr_1 orb fst snd shr_m
       loc_of_shr_record round_nearest_even Zdigits2].
  rewrite Hd.
  replace (fexp Float32.prec Float32.emax (24 + (e + -23 + 23)) - (e + -23 + 23))
    with 0 by (unfold fexp, emin, Float32.prec, Float32.emax; lia).
  cbn [shr shr_record_of_loc shr_m].
  destruct (Z.leb_spec (e + -23 + 23) (Float32.emax - Float32.prec));
    [f_equal; lia|].
  unfold Float32.emax, Float32.prec in *. lia.
Qed.

(** With the default scale [1.0f], a raw value of magnitude below
    [2^24] is stored with no rounding at all: the equation's value is
    exactly that integer. *)
Theorem default_scale_stores_small_raw_exactly (equation : string) (raw : Z) :
  - 2 ^ 24 < raw < 2 ^ 24 ->
  Float32.holds_exactly
    (Equation.value (Equation.update_from_raw raw (Equation.new equation Float32.one)))
    raw.
Proof.
  intros Hr. unfold Equation.update_from_raw, Equation.new.
  cbn [Equation.value Equation.scale_inv].
  change (Float32.div Float32.one Float32.one) with Float32.one.
  destruct (Z.eqb_spec raw INT32_MAX) as [Hmax|_];
    [unfold INT32_MAX in Hmax; lia|].
  unfold Float32.of_int32, binary_normalize.
  destruct raw as [|p|p].
  - reflexivity.
  - destruct (of_int32_pos_small p) as (m & e & Hround & Hd & He & Hm); [lia|].
    rewrite Hround, mul_one_canonical by (try exact Hd; lia).
    cbn [Float32.holds_exactly].
    rewrite Z.max_r, Z.max_l by lia. rewrite Hm. cbn [Z.pow]. lia.
  - destruct (of_int32_pos_small p) as (m & e & Hround & Hd & He & Hm); [lia|].
    rewrite Hround, mul_one_canonical by (try exact Hd; lia).
    cbn [Float32.holds_exactly].
    rewrite Z.max_r, Z.max_l by lia. rewrite Hm. cbn [Z.pow]. lia.
Qed.

(** Raw 1000 and raw -16777215 at the default scale. *)
Lemma default_scale_stores_small_raw_exactly_witness :
  Float32.holds_exactly
    (Equation.value (Equation.update_from_raw 1000 (Equation.new "rpm*2" Float32.one)))
    1000
  /\ Float32.holds_exactly
       (Equation.value
          (Equation.update_from_raw (- 16777215) (Equation.new "rpm*2" Float32.one)))
       (- 16777215)
  /\ Equation.value (Equation.update_from_raw 1000 (Equation.new "rpm*2" Float32.one))
     = S754_finite false 16384000 (-14).
Proof.
  split; [|split; [|reflexivity]].
  - apply (default_scale_stores_small_raw_exactly "rpm*2" 1000). lia.
  - apply (default_scale_stores_small_raw_exactly "rpm*2" (- 16777215)). lia.
Defined.

(** ** When a value write completes *)

Lemma read_record_Done (raw : list Z) (i : nat) (monitor_id val_raw : Z) :
  MonNotifyCallbacks.read_record raw i = Done (monitor_id, val_raw) ->
  exists b1 b2 b3 b4,
    drop i raw = monitor_id :: b1 :: b2 :: b3 :: b4 :: drop (i + 5) raw.
Proof.
  unfold MonNotifyCallbacks.read_record, bind, MonNotifyCallbacks.read.
  destruct (raw !! i) as [b0|] eqn:H0; [|discriminate].
  destruct (raw !! (i + 1)%nat) as [b1|] eqn:H1; [|discriminate].
  destruct (raw !! (i + 2)%nat) as [b2|] eqn:H2; [|discriminate].
  destruct (raw !! (i + 3)%nat) as [b3|] eqn:H3; [|discriminate].
  destruct (raw !! (i + 4)%nat) as [b4|] eqn:H4; [|discriminate].
  intros Heq. injection Heq as <- _. exists b1, b2, b3, b4.
  rewrite (drop_S raw b0 i H0).
  replace (S i) with (i + 1)%nat by lia. rewrite (drop_S raw b1 _ H1).
  replace (S (i + 1)) with (i + 2)%nat by lia. rewrite (drop_S raw b2 _ H2).
  replace (S (i + 2)) with (i + 3)%nat by lia. rewrite (drop_S raw b3 _ H3).
  replace (S (i + 3)) with (i + 4)%nat by lia. rewrite (drop_S raw b4 _ H4).
  replace (S (i + 4)) with (i + 5)%nat by lia. reflexivity.
Qed.

(** If the loop completes, what it went through was whole records for
    configured equations. *)
Lemma notify_loop_Done_records (n : nat) (raw : list Z) :
  Forall (fun b => 0 <= b < 256) raw ->
  forall (r i : nat) (l l' : list Equation.t),
    (List.length raw - i <= r)%nat ->
    List.length l = n ->
    MonNotifyCallbacks.notify_loop raw i l = Done l' ->
    exists records,
      drop i raw = record_bytes records
      /\ Forall (fun r => 0 <= fst r < Z.of_nat n /\ List.length (snd r) = 4%nat)
                records.
Proof.
  intros Hbytes. induction r as [|r IH]; intros i l l' Hr Hl Hrun;
    rewrite notify_loop_unfold in Hrun;
    destruct (decide (i < List.length raw)%nat) as [Hlt|Hge]; try lia;
    try (exists []; split; [apply drop_ge; lia | apply Forall_nil_2]).
  destruct (MonNotifyCallbacks.read_record raw i) as [[monitor_id val_raw]|f] eqn:Hrec;
    [|discriminate Hrun].
  destruct (l !! Z.to_nat monitor_id) as [eq|] eqn:Hk; [|discriminate Hrun].
  destruct (read_record_Done raw i _ _ Hrec) as (b1 & b2 & b3 & b4 & Hdrop).
  apply IH in Hrun; [|lia|rewrite length_insert; exact Hl].
  destruct Hrun as (records & Hrest & Hok).
  exists ((monitor_id, [b1; b2; b3; b4]) :: records). split.
  - rewrite Hdrop, Hrest. reflexivity.
  - apply Forall_cons_2; [|exact Hok]. cbn [fst snd]. split; [|reflexivity].
    assert (Hin : monitor_id ∈ raw).
    { apply (list_elem_of_lookup_2 raw i).
      rewrite <- (Nat.add_0_r i), <- lookup_drop, Hdrop. reflexivity. }
    rewrite Forall_forall in Hbytes. specialize (Hbytes _ Hin).
    apply lookup_lt_Some in Hk. lia.
Qed.

(** The value-write handler completes exactly on the payloads made of
    whole five-byte records that all name configured equations (the empty
    payload among them); on every other payload it leaves the payload or
    the equation vector. *)
Theorem value_write_completes_iff (m : Monitor.t) (raw : list Z) :
  Forall (fun b => 0 <= b < 256) raw ->
  (exists m', MonNotifyCallbacks.onWrite raw m = Done m')
  <-> whole_records (List.length (Monitor.eqs m)) raw.
Proof.
  intros Hbytes. unfold MonNotifyCallbacks.onWrite. split.
  - intros [m' Hrun].
    destruct (MonNotifyCallbacks.notify_loop raw 0 (Monitor.eqs m)) as [l|f] eqn:Hloop;
      [|discriminate Hrun].
    destruct (notify_loop_Done_records _ raw Hbytes (List.length raw) 0 _ _
                ltac:(lia) eq_refl Hloop) as (records & Hraw & Hok).
    exists records. split; [exact Hraw | exact Hok].
  - intros (records & -> & Hok).
    destruct (notify_loop_records _ records Hok [] [] (Monitor.eqs m) eq_refl)
      as (l' & _ & Hrun).
    cbn [app List.length] in Hrun. rewrite app_nil_r in Hrun. rewrite Hrun.
    rewrite notify_loop_unfold.
    destruct (decide _) as [Hlt|Hge]; [lia|]. eauto.
Qed.

(** One record for channel 1 of two. *)
Lemma value_write_completes_iff_witness :
  let m := Monitor.add "speed" (S754_finite false 15099494 (-22))
             (Monitor.add "rpm*2" Float32.one (Monitor.new (mkServer 1))) in
  Forall (fun b => 0 <= b < 256) [1; 0; 0; 0; 36]
  /\ whole_records (List.length (Monitor.eqs m)) [1; 0; 0; 0; 36]
  /\ exists m', MonNotifyCallbacks.onWrite [1; 0; 0; 0; 36] m = Done m'.
Proof.
  intros m.
  assert (Hbytes : Forall (fun b => 0 <= b < 256) [1; 0; 0; 0; 36])
    by (repeat (apply Forall_cons_2; [lia|]); apply Forall_nil_2).
  assert (Hwhole : whole_records (List.length (Monitor.eqs m)) [1; 0; 0; 0; 36]).
  { exists [(1, [0; 0; 0; 36])]. split; [reflexivity|].
    apply Forall_cons_2; [cbn; lia | apply Forall_nil_2]. }
  split; [exact Hbytes|]. split; [exact Hwhole|].
  apply (value_write_completes_iff m [1; 0; 0; 0; 36] Hbytes). exact Hwhole.
Defined.

(** ** data_valid and the values *)

(** [data_valid()] looks at the state only, never at the values: an
    engine in Started whose equations all hold NoData answers true as soon
    as an ack [00 xx] arrives, with every equation still at NoData. *)
Theorem data_valid_with_no_data (m : Monitor.t) (x : Z) :
  Monitor.state m = Monitor.STARTED ->
  Forall (fun eq => Equation.value eq = Float32.NAN) (Monitor.eqs m) ->
  let m' := MonConfigCallbacks.onWrite [0; x] m in
  Monitor.data_valid m = false
  /\ Monitor.data_valid m' = true
  /\ Forall (fun eq => Equation.value eq = Float32.NAN) (Monitor.eqs m').
Proof.
  intros Hst Hnan. cbv zeta. unfold MonConfigCallbacks.onWrite.
  cbn [List.length Nat.eqb nth Z.eqb andb].
  unfold Monitor.timeout_reset, Monitor.data_valid. rewrite Hst.
  cbn [Monitor.state Monitor.set_state Monitor.attach_ms Monitor.eqs].
  repeat split. exact Hnan.
Qed.

(** Two equations just added, then the ack [00 00]. *)
Lemma data_valid_with_no_data_witness :
  let m := Monitor.add "speed" (S754_finite false 15099494 (-22))
             (Monitor.add "rpm*2" Float32.one (Monitor.new (mkServer 1))) in
  Monitor.state m = Monitor.STARTED
  /\ Monitor.data_valid (MonConfigCallbacks.onWrite [0; 0] m) = true
  /\ List.map Equation.value (Monitor.eqs (MonConfigCallbacks.onWrite [0; 0] m))
     = [Float32.NAN; Float32.NAN].
Proof.
  intros m.
  assert (Hst : Monitor.state m = Monitor.STARTED) by reflexivity.
  assert (Hnan : Forall (fun eq => Equation.value eq = Float32.NAN) (Monitor.eqs m))
    by (repeat (apply Forall_cons_2; [reflexivity|]); apply Forall_nil_2).
  destruct (data_valid_with_no_data m 0 Hst Hnan) as (_ & Hvalid & _).
  split; [exact Hst|]. split; [exact Hvalid | reflexivity].
Defined.
